(** * ONNX Runtime model adapters: a shallow embedding of
      [optimum/onnxruntime/modeling_ort.py]

    The Python module is glue around external tools (the inference engine,
    the graph optimizer, the quantizer, the hub client and the file system).
    The embedding keeps the control flow of the module and takes every
    external tool as a member of the [Externals] interface, so each theorem
    holds for all behaviours of those tools.

    Python objects that are mutated in place ([self], the optimization
    configuration) live in a store and are passed by reference; exceptions
    are values of [PyError]; the state of the world (files, store, log of
    external calls) is threaded through a state-and-exception monad.
    Calls to [logger.info] have no effect on any of this and are left out. *)

From stdpp Require Import base gmap strings list.

Local Open Scope string_scope.

(** ** Paths

    A path is its list of components.  File names are single components, so
    [Path(d).joinpath(n)] appends one component, [.parent] drops the last
    one and [.name] returns it. *)

Abbreviation Path := (list string).

Definition joinpath (p : Path) (n : string) : Path := p ++ [n].
Definition path_parent (p : Path) : Path := removelast p.
Definition path_name (p : Path) : string := List.last p "".

(** ** Python values and exceptions *)

Inductive PyVal :=
| VNone
| VBool (b : bool)
| VInt (z : Z)
| VStr (s : string).

Inductive PyError :=
| AttributeError (attr : string)   (* attribute access on [None] or a missing attribute *)
| ValueError (msg : string)
| KeyError (key : string)
| IndexError
| NotImplementedError
| FileNotFoundError (p : Path)
| SameFileError (p : Path)
| UnsupportedModelType (mt : PyVal) (* ORTConfigManager.check_supported_model_or_raise *)
| ExternalError (tool : string).    (* an external collaborator raised *)

Inductive Result (A : Type) :=
| Ok (a : A)
| Raise (e : PyError).
Arguments Ok {A} a.
Arguments Raise {A} e.

Definition is_ok {A} (r : Result A) : bool :=
  match r with Ok _ => true | Raise _ => false end.

(** ** Configuration objects

    [OptimizationConfig] and [QuantizationConfig] are declared in
    [optimum/onnxruntime/configuration.py]; the records list the attributes
    this module reads or writes. [oc_model_type] is the attribute
    [model_type], which [optimize] assigns; [fusion_toggles] stands for the
    remaining knobs, which only [FusionOptions.parse] reads. *)

Record OptimizationConfig := {
  optimization_level : Z;
  optimize_for_gpu : bool;
  optimize_with_onnxruntime_only : bool;
  fusion_toggles : gmap string bool;
  oc_model_type : option PyVal;
}.

Definition set_oc_model_type (v : PyVal) (c : OptimizationConfig) : OptimizationConfig :=
  {| optimization_level := optimization_level c;
     optimize_for_gpu := optimize_for_gpu c;
     optimize_with_onnxruntime_only := optimize_with_onnxruntime_only c;
     fusion_toggles := fusion_toggles c;
     oc_model_type := Some v |}.

Inductive QuantizationMode := IntegerOps | QLinearOps.
Inductive QuantType := QInt8 | QUInt8.

(** An entry of [operators_to_quantize] is either a member of the enum
    [ORTQuantizableOperator] (carrying its [.value]) or a plain string. *)
Inductive Operator :=
| OperatorEnum (value : string)
| OperatorName (s : string).

Record QuantizationConfig := {
  is_static : bool;
  per_channel : bool;
  mode : QuantizationMode;
  weights_dtype : QuantType;
  activations_dtype : QuantType;
  reduce_range : bool;
  nodes_to_quantize : list string;
  nodes_to_exclude : list string;
  operators_to_quantize : list Operator;
  weights_symmetric : bool;
  activations_symmetric : bool;
}.

(** [PretrainedConfig]: an object is its attribute dictionary. *)
Abbreviation PretrainedConfig := (gmap string PyVal).

(** [config.model_type]; the class attribute [""] is the fallback. *)
Definition model_type (c : PretrainedConfig) : PyVal :=
  default (VStr "") (c !! "model_type").

(** [getattr(config, name)] *)
Definition getattr (c : PretrainedConfig) (attr : string) : Result PyVal :=
  match c !! attr with
  | Some v => Ok v
  | None => Raise (AttributeError attr)
  end.

(** ** External collaborators *)

(** Arguments of [onnxruntime.transformers.optimizer.optimize_model]. *)
Record OptimizeArgs (FusionOptions : Type) := {
  oa_input : Path;
  oa_model_type : string;
  oa_num_heads : PyVal;
  oa_hidden_size : PyVal;
  oa_opt_level : Z;
  oa_use_gpu : bool;
  oa_optimization_options : FusionOptions;
  oa_only_onnxruntime : bool;
}.
Arguments oa_input {_} _.
Arguments oa_model_type {_} _.
Arguments oa_num_heads {_} _.
Arguments oa_hidden_size {_} _.
Arguments oa_opt_level {_} _.
Arguments oa_use_gpu {_} _.
Arguments oa_optimization_options {_} _.
Arguments oa_only_onnxruntime {_} _.

(** Arguments of the constructor of [ONNXQuantizer]. *)
Record QuantizerArgs (ModelProto : Type) := {
  qa_model : ModelProto;
  qa_static : bool;
  qa_per_channel : bool;
  qa_mode : QuantizationMode;
  qa_weight_qType : QuantType;
  qa_input_qType : QuantType;
  qa_tensors_range : PyVal;
  qa_reduce_range : bool;
  qa_nodes_to_quantize : list string;
  qa_nodes_to_exclude : list string;
  qa_op_types_to_quantize : list string;
  qa_extra_options : list (string * bool);
}.
Arguments qa_model {_} _.
Arguments qa_static {_} _.
Arguments qa_per_channel {_} _.
Arguments qa_mode {_} _.
Arguments qa_weight_qType {_} _.
Arguments qa_input_qType {_} _.
Arguments qa_tensors_range {_} _.
Arguments qa_reduce_range {_} _.
Arguments qa_nodes_to_quantize {_} _.
Arguments qa_nodes_to_exclude {_} _.
Arguments qa_op_types_to_quantize {_} _.
Arguments qa_extra_options {_} _.

(** Arguments of [huggingface_hub.hf_hub_download]. *)
Record DownloadArgs := {
  da_repo_id : Path;
  da_filename : string;
  da_use_auth_token : PyVal;
  da_revision : option string;
  da_cache_dir : option string;
  da_force_download : bool;
}.

(** Everything the module imports and does not define.  A function into
    [option] returns [None] when the tool raises.  The three file names, the
    cache path, the GPU probe and the registry table come from
    [optimum/onnxruntime/utils.py] and [transformers.file_utils]. *)
Class Externals := {
  (* onnxruntime: a session is opened from the bytes of a file *)
  InferenceSession : Type;
  ort_InferenceSession : string -> string -> option InferenceSession;
  get_inputs : InferenceSession -> list string;
  get_outputs : InferenceSession -> list string;
  (* tensors and arrays *)
  Tensor : Type;
  NDArray : Type;
  tensor_numpy : Tensor -> NDArray;        (* [.cpu().detach().numpy()] *)
  torch_from_numpy : NDArray -> Tensor;
  session_run : InferenceSession -> list (string * NDArray) -> option (list NDArray);
  (* onnxruntime.transformers *)
  FusionOptions : Type;
  FusionOptions_parse : OptimizationConfig -> FusionOptions;
  OnnxModel : Type;
  optimize_model : string -> OptimizeArgs FusionOptions -> option OnnxModel;
  convert_float_to_float16 : OnnxModel -> OnnxModel;
  is_fully_optimized : OnnxModel -> bool;
  save_model_bytes : OnnxModel -> string;  (* what [save_model_to_file] writes *)
  (* onnx and onnxruntime.quantization *)
  ModelProto : Type;
  onnx_load : string -> option ModelProto;
  quantize_model : QuantizerArgs ModelProto -> option OnnxModel;
  (* huggingface_hub: the local path of the download and its bytes *)
  hf_hub_download : DownloadArgs -> option (Path * string);
  (* transformers *)
  PretrainedConfig_from_dict : gmap string PyVal -> PretrainedConfig;
  default_cache_path : Path;
  (* optimum.onnxruntime.utils *)
  ONNX_WEIGHTS_NAME : string;
  OPTIMIZED_ONNX_WEIGHTS_NAME : string;
  QUANTIZED_ONNX_WEIGHTS_NAME : string;
  _is_gpu_available : bool;
  (* model type -> (head-count attribute, hidden-size attribute, optimizer tag) *)
  ORTConfigManager_conf : gmap string (string * string * string);
}.

(** ** Objects, the world and the monad *)

Inductive ORTClass :=
| ORTModelBase
| ORTModelForFeatureExtraction
| ORTModelForQuestionAnswering
| ORTModelForSequenceClassification
| ORTModelForTokenClassification
| ORTModelForCausalLM.

(** Keyword arguments that reach [ORTModel.__init__]; [None] is an absent
    key. [kw_config] is the key ["config"], popped by [_from_pretrained].
    These are the keys that [_from_pretrained] and [__init__] read; [__init__]
    ignores any other.  The key [file_name] cannot be among them:
    [_from_pretrained] binds it to its parameter of that name.  It can be
    among the keyword arguments of [_from_transformers], which hands them
    on; there it is the argument [kwargs_file_name]. *)
Record Kwargs := {
  kw_config : option (gmap string PyVal);
  kw_model_save_dir : option Path;
  kw_latest_model_name : option string;
}.

Definition no_kwargs : Kwargs :=
  {| kw_config := None; kw_model_save_dir := None; kw_latest_model_name := None |}.

Section Adapter.
Context `{E : Externals}.

(** An adapter object. [model_outputs] and [model_inputs] are the
    name-to-position dictionaries that the task classes add in their
    [__init__]; an object of a class that does not set one never reads it. *)
Record ORTModel := {
  cls : ORTClass;
  model : option InferenceSession;
  config : option PretrainedConfig;
  model_save_dir : option Path;
  latest_model_name : string;
  model_outputs : gmap string nat;
  model_inputs : gmap string nat;
}.

(** Calls that leave the module, in the order they are made. *)
Inductive Event :=
| EvInferenceSession (path : Path) (provider : string)
| EvOptimizeModel (args : OptimizeArgs FusionOptions)
| EvSaveModelToFile (path : Path)
| EvOnnxLoad (path : Path)
| EvONNXQuantizer (args : QuantizerArgs ModelProto)
| EvQuantizeModel
| EvHubDownload (args : DownloadArgs)
| EvSessionRun (onnx_inputs : list (string * NDArray)).

Record World := {
  files : gmap Path string;          (* regular files and their bytes *)
  dirs : gset Path;                  (* existing directories *)
  adapters : gmap nat ORTModel;      (* store of adapter objects *)
  opt_configs : gmap nat OptimizationConfig;
  trace : list Event;
}.

Definition M (A : Type) : Type := World -> Result A * World.

#[global] Instance M_ret : MRet M := λ A a w, (Ok a, w).
#[global] Instance M_bind : MBind M := λ A B f m w,
  match m w with
  | (Ok a, w') => f a w'
  | (Raise e, w') => (Raise e, w')
  end.

Definition raise {A} (e : PyError) : M A := λ w, (Raise e, w).
Definition get_world : M World := λ w, (Ok w, w).
Definition lift {A} (r : Result A) : M A := λ w, (r, w).

(** [x.attr] where [x] may be [None] *)
Definition on_none {A} (x : option A) (e : PyError) : M A :=
  match x with
  | Some a => mret a
  | None => raise e
  end.

Definition log (ev : Event) : M unit := λ w,
  (Ok tt, {| files := files w; dirs := dirs w; adapters := adapters w;
             opt_configs := opt_configs w; trace := trace w ++ [ev] |}).

Definition write_file (p : Path) (bytes : string) : M unit := λ w,
  (Ok tt, {| files := <[p := bytes]> (files w); dirs := dirs w;
             adapters := adapters w; opt_configs := opt_configs w;
             trace := trace w |}).

Definition isdir (p : Path) : M bool := λ w, (Ok (bool_decide (p ∈ dirs w)), w).

(** Reading a reference. A Python program only holds references to objects
    that exist, so the [None] case is not reached from such a state. *)
Definition deref (self : nat) : M ORTModel :=
  w ← get_world;
  on_none (adapters w !! self) (AttributeError "self").

Definition deref_config (r : nat) : M OptimizationConfig :=
  w ← get_world;
  on_none (opt_configs w !! r) (AttributeError "optimization_config").

Definition update_adapter (self : nat) (f : ORTModel -> ORTModel) : M unit := λ w,
  (Ok tt, {| files := files w; dirs := dirs w;
             adapters := alter f self (adapters w);
             opt_configs := opt_configs w; trace := trace w |}).

(** [self.model = m] *)
Definition set_model (self : nat) (m : InferenceSession) : M unit :=
  update_adapter self (λ a,
    {| cls := cls a; model := Some m; config := config a;
       model_save_dir := model_save_dir a;
       latest_model_name := latest_model_name a;
       model_outputs := model_outputs a; model_inputs := model_inputs a |}).

(** [self.model_save_dir = d] *)
Definition set_model_save_dir (self : nat) (d : Path) : M unit :=
  update_adapter self (λ a,
    {| cls := cls a; model := model a; config := config a;
       model_save_dir := Some d;
       latest_model_name := latest_model_name a;
       model_outputs := model_outputs a; model_inputs := model_inputs a |}).

(** [self.latest_model_name = n] *)
Definition set_latest_model_name (self : nat) (n : string) : M unit :=
  update_adapter self (λ a,
    {| cls := cls a; model := model a; config := config a;
       model_save_dir := model_save_dir a;
       latest_model_name := n;
       model_outputs := model_outputs a; model_inputs := model_inputs a |}).

(** [optimization_config.model_type = v] *)
Definition setattr_model_type (r : nat) (v : PyVal) : M unit := λ w,
  (Ok tt, {| files := files w; dirs := dirs w; adapters := adapters w;
             opt_configs := alter (set_oc_model_type v) r (opt_configs w);
             trace := trace w |}).

(** Allocation of a new adapter object. *)
Definition new_adapter (a : ORTModel) : M nat := λ w,
  let r := fresh (dom (adapters w)) in
  (Ok r, {| files := files w; dirs := dirs w;
            adapters := <[r := a]> (adapters w);
            opt_configs := opt_configs w; trace := trace w |}).

(** ** ORTConfigManager *)

(** Modelled from the spec: [ORTConfigManager] lives in
    [optimum/onnxruntime/utils.py], which is not part of the sources at hand.
    The spec describes it as a small static registry from the model type to
    the names of the head-count and hidden-size attributes and to the
    optimizer's model-type tag, and says that a model type absent from the
    registry fails immediately with an unsupported-model-type condition. *)
Definition conf_lookup (mt : PyVal) : option (string * string * string) :=
  match mt with
  | VStr s => ORTConfigManager_conf !! s
  | _ => None
  end.

(** Modelled from the spec: [ORTConfigManager.check_supported_model_or_raise]. *)
Definition check_supported_model_or_raise (mt : PyVal) : M unit :=
  match conf_lookup mt with
  | Some _ => mret tt
  | None => raise (UnsupportedModelType mt)
  end.

(** Modelled from the spec: [ORTConfigManager.get_num_heads_name]. *)
Definition get_num_heads_name (mt : PyVal) : M string :=
  match conf_lookup mt with
  | Some (num_heads, _, _) => mret num_heads
  | None => raise (UnsupportedModelType mt)
  end.

(** Modelled from the spec: [ORTConfigManager.get_hidden_size_name]. *)
Definition get_hidden_size_name (mt : PyVal) : M string :=
  match conf_lookup mt with
  | Some (_, hidden_size, _) => mret hidden_size
  | None => raise (UnsupportedModelType mt)
  end.

(** Modelled from the spec: [ORTConfigManager.get_model_ort_type]. *)
Definition get_model_ort_type (mt : PyVal) : M string :=
  match conf_lookup mt with
  | Some (_, _, ort_type) => mret ort_type
  | None => raise (UnsupportedModelType mt)
  end.

(** ** Calls into the external tools *)

(** [ort.InferenceSession(path, providers=[provider])]: the engine opens the
    file itself; a missing or malformed file is a load failure. *)
Definition call_InferenceSession (path : Path) (provider : string) : M InferenceSession :=
  log (EvInferenceSession path provider);;
  w ← get_world;
  on_none (files w !! path ≫= λ bytes, ort_InferenceSession bytes provider)
          (ExternalError "InferenceSession").

(** [optimize_model(input=..., ...)]: the optimizer reads the input file. *)
Definition call_optimize_model (args : OptimizeArgs FusionOptions) : M OnnxModel :=
  log (EvOptimizeModel args);;
  w ← get_world;
  on_none (files w !! oa_input args ≫= λ bytes, optimize_model bytes args)
          (ExternalError "optimize_model").

(** [m.save_model_to_file(path)] *)
Definition save_model_to_file (m : OnnxModel) (path : Path) : M unit :=
  log (EvSaveModelToFile path);;
  write_file path (save_model_bytes m).

(** [onnx.load(path)] *)
Definition call_onnx_load (path : Path) : M ModelProto :=
  log (EvOnnxLoad path);;
  w ← get_world;
  on_none (files w !! path ≫= onnx_load) (ExternalError "onnx.load").

(** [ONNXQuantizer(...)]: the constructor only records its arguments. *)
Definition call_ONNXQuantizer (args : QuantizerArgs ModelProto) : M (QuantizerArgs ModelProto) :=
  log (EvONNXQuantizer args);;
  mret args.

(** [quantizer.quantize_model()]; the result is [quantizer.model]. *)
Definition call_quantize_model (quantizer : QuantizerArgs ModelProto) : M OnnxModel :=
  log EvQuantizeModel;;
  on_none (quantize_model quantizer) (ExternalError "quantize_model").

(** [hf_hub_download(...)]: the file is written into the cache and its
    local path returned. *)
Definition call_hf_hub_download (args : DownloadArgs) : M Path :=
  log (EvHubDownload args);;
  '(path, bytes) ← on_none (hf_hub_download args) (ExternalError "hf_hub_download");
  write_file path bytes;;
  mret path.

(** [shutil.copyfile(src, dst)] *)
Definition copyfile (src dst : Path) : M unit :=
  w ← get_world;
  match files w !! src with
  | None => raise (FileNotFoundError src)
  | Some bytes =>
      if decide (src = dst) then raise (SameFileError src)
      else if decide (path_parent dst ∈ dirs w) then write_file dst bytes
      else raise (FileNotFoundError dst)
  end.

(** ** ORTModel *)

(** [ORTModel.__init__(self, model=None, config=None, **kwargs)] *)
Definition ORTModel_init (c : ORTClass) (model : option InferenceSession)
    (config : option PretrainedConfig) (kwargs : Kwargs) : ORTModel :=
  {| cls := c;
     model := model;
     config := config;
     model_save_dir := kw_model_save_dir kwargs;
     latest_model_name := default "model.onnx" (kw_latest_model_name kwargs);
     model_outputs := ∅;
     model_inputs := ∅ |}.

(** [ORTModel.load_model(path, provider=None)] *)
Definition load_model (path : Path) (provider : option string) : M InferenceSession :=
  let provider :=
    match provider with
    | Some p => p
    | None => if _is_gpu_available then "CUDAExecutionProvider" else "CPUExecutionProvider"
    end in
  call_InferenceSession path provider.

(** [ORTModel.optimize(self, optimization_config, output_path)].
    [optimization_config] is a reference into the store of configuration
    objects, or [None]. *)
Definition optimize (self : nat) (optimization_config : option nat)
    (output_path : Path) : M nat :=
  a ← deref self;
  save_dir ← on_none (model_save_dir a) (AttributeError "joinpath");
  let _input_path := joinpath save_dir (latest_model_name a) in
  let output_path := joinpath default_cache_path OPTIMIZED_ONNX_WEIGHTS_NAME in
  cfg ← on_none (config a) (AttributeError "model_type");
  check_supported_model_or_raise (model_type cfg);;
  num_heads_name ← get_num_heads_name (model_type cfg);
  num_heads ← lift (getattr cfg num_heads_name);
  hidden_size_name ← get_hidden_size_name (model_type cfg);
  hidden_size ← lift (getattr cfg hidden_size_name);
  optimization_model_type ← get_model_ort_type (model_type cfg);
  oc_ref ← on_none optimization_config (AttributeError "model_type");
  setattr_model_type oc_ref (VStr optimization_model_type);;
  oc ← deref_config oc_ref;
  let optimization_options := FusionOptions_parse oc in
  optimized_model ← call_optimize_model
    {| oa_input := _input_path;
       oa_model_type := optimization_model_type;
       oa_num_heads := num_heads;
       oa_hidden_size := hidden_size;
       oa_opt_level := optimization_level oc;
       oa_use_gpu := optimize_for_gpu oc;
       oa_optimization_options := optimization_options;
       oa_only_onnxruntime := optimize_with_onnxruntime_only oc |};
  let optimized_model :=
    if _is_gpu_available then convert_float_to_float16 optimized_model
    else optimized_model in
  save_model_to_file optimized_model output_path;;
  m ← load_model output_path None;
  set_model self m;;
  set_model_save_dir self (path_parent output_path);;
  set_latest_model_name self (path_name output_path);;
  mret self.

(** [operator.value if isinstance(operator, ORTQuantizableOperator) else operator] *)
Definition op_type (operator : Operator) : string :=
  match operator with
  | OperatorEnum value => value
  | OperatorName s => s
  end.

(** The keyword arguments handed to [ONNXQuantizer] by [quantize]. *)
Definition quantizer_args (onnx_model : ModelProto)
    (quantization_config : QuantizationConfig) : QuantizerArgs ModelProto :=
  {| qa_model := onnx_model;
     qa_static := is_static quantization_config;
     qa_per_channel := per_channel quantization_config;
     qa_mode := mode quantization_config;
     qa_weight_qType := weights_dtype quantization_config;
     qa_input_qType := activations_dtype quantization_config;
     qa_tensors_range := VNone;
     qa_reduce_range := reduce_range quantization_config;
     qa_nodes_to_quantize := nodes_to_quantize quantization_config;
     qa_nodes_to_exclude := nodes_to_exclude quantization_config;
     qa_op_types_to_quantize := op_type <$> operators_to_quantize quantization_config;
     qa_extra_options :=
       [("WeightSymmetric", weights_symmetric quantization_config);
        ("ActivationSymmetric", activations_symmetric quantization_config);
        ("EnableSubgraph", false);
        ("ForceSymmetric",
          activations_symmetric quantization_config
          && weights_symmetric quantization_config)] |}.

(** [ORTModel.quantize(self, quantization_config, output_path)] *)
Definition quantize (self : nat) (quantization_config : QuantizationConfig)
    (output_path : Path) : M nat :=
  if is_static quantization_config
  then raise (ValueError "Static Quantization is not yet supported, please us ORTQuantizer.")
  else if _is_gpu_available
  then raise (ValueError "GPU is not supported for quantization")
  else
    a ← deref self;
    save_dir ← on_none (model_save_dir a) (AttributeError "joinpath");
    let _input_path := joinpath save_dir (latest_model_name a) in
    let output_path := joinpath default_cache_path QUANTIZED_ONNX_WEIGHTS_NAME in
    onnx_model ← call_onnx_load _input_path;
    quantizer ← call_ONNXQuantizer (quantizer_args onnx_model quantization_config);
    quantized ← call_quantize_model quantizer;
    save_model_to_file quantized output_path;;
    m ← load_model output_path None;
    set_model self m;;
    set_model_save_dir self (path_parent output_path);;
    set_latest_model_name self (path_name output_path);;
    mret self.

(** [ORTModel._save_pretrained(self, save_directory, file_name=None)] *)
Definition _save_pretrained (self : nat) (save_directory : Path)
    (file_name : option string) : M unit :=
  let model_file_name := default ONNX_WEIGHTS_NAME file_name in
  a ← deref self;
  save_dir ← on_none (model_save_dir a) (AttributeError "joinpath");
  let src_path := joinpath save_dir (latest_model_name a) in
  let dst_path := joinpath save_directory model_file_name in
  copyfile src_path dst_path.

(** ** Task classes *)

(** [{key.name: idx for idx, key in enumerate(keys)}]: a later duplicate of
    a name overwrites the earlier position. *)
Definition name_index (names : list string) : gmap string nat :=
  foldl (λ d '(idx, name), <[name := idx]> d) ∅ (imap pair names).

Definition with_model_outputs (d : gmap string nat) (a : ORTModel) : ORTModel :=
  {| cls := cls a; model := model a; config := config a;
     model_save_dir := model_save_dir a;
     latest_model_name := latest_model_name a;
     model_outputs := d; model_inputs := model_inputs a |}.

Definition with_model_inputs (d : gmap string nat) (a : ORTModel) : ORTModel :=
  {| cls := cls a; model := model a; config := config a;
     model_save_dir := model_save_dir a;
     latest_model_name := latest_model_name a;
     model_outputs := model_outputs a; model_inputs := d |}.

(** [__init__] of each class: the base initialiser, then the dictionaries.
    ([ORTModelForCausalLM] also sets the constant [main_input_name], which
    only the generation mixin reads.) *)
Definition class_init (c : ORTClass) (model_ : option InferenceSession)
    (config_ : option PretrainedConfig) (kwargs : Kwargs) : M ORTModel :=
  let self := ORTModel_init c model_ config_ kwargs in
  match c with
  | ORTModelBase => mret self
  | ORTModelForFeatureExtraction =>
      m ← on_none (model self) (AttributeError "get_outputs");
      mret (with_model_outputs (name_index (get_outputs m)) self)
  | ORTModelForQuestionAnswering =>
      m ← on_none (model self) (AttributeError "get_outputs");
      mret (with_model_outputs (name_index (get_outputs m)) self)
  | ORTModelForSequenceClassification =>
      m ← on_none (model self) (AttributeError "get_outputs");
      let self := with_model_outputs (name_index (get_outputs m)) self in
      mret (with_model_inputs (name_index (get_inputs m)) self)
  | ORTModelForTokenClassification =>
      m ← on_none (model self) (AttributeError "get_outputs");
      mret (with_model_outputs (name_index (get_outputs m)) self)
  | ORTModelForCausalLM =>
      m ← on_none (model self) (AttributeError "get_outputs");
      mret (with_model_outputs (name_index (get_outputs m)) self)
  end.

(** [cls(model=model, config=config, **kwargs)]: a new object. *)
Definition construct (c : ORTClass) (model : option InferenceSession)
    (config : option PretrainedConfig) (kwargs : Kwargs) : M nat :=
  a ← class_init c model config kwargs;
  new_adapter a.

(** [cls._from_pretrained(model_id, use_auth_token, revision, force_download,
    cache_dir, file_name, **kwargs)] *)
Definition _from_pretrained (c : ORTClass) (model_id : Path)
    (use_auth_token : PyVal) (revision : option string) (force_download : bool)
    (cache_dir : option string) (file_name : option string)
    (kwargs : Kwargs) : M nat :=
  let config_dict := default ∅ (kw_config kwargs) in
  let model_file_name := default ONNX_WEIGHTS_NAME file_name in
  local ← isdir model_id;
  if local : bool then
    let config := PretrainedConfig_from_dict config_dict in
    model ← load_model (joinpath model_id model_file_name) None;
    let kwargs :=
      {| kw_config := None;
         kw_model_save_dir := Some model_id;
         kw_latest_model_name := kw_latest_model_name kwargs |} in
    construct c (Some model) (Some config) kwargs
  else
    model_cache_path ← call_hf_hub_download
      {| da_repo_id := model_id;
         da_filename := model_file_name;
         da_use_auth_token := use_auth_token;
         da_revision := revision;
         da_cache_dir := cache_dir;
         da_force_download := force_download |};
    let kwargs :=
      {| kw_config := None;
         kw_model_save_dir := Some (path_parent model_cache_path);
         kw_latest_model_name := Some (path_name model_cache_path) |} in
    model ← load_model model_cache_path None;
    let config := PretrainedConfig_from_dict config_dict in
    construct c (Some model) (Some config) kwargs.

(** Result structures of [transformers.modeling_outputs]. *)
Inductive ModelOutput :=
| BaseModelOutput (last_hidden_state : Tensor)
| QuestionAnsweringModelOutput (start_logits end_logits : Tensor)
| SequenceClassifierOutput (logits : Tensor)
| TokenClassifierOutput (logits : Tensor)
| CausalLMOutputWithCrossAttentions (logits : Tensor).

(** [x.cpu().detach().numpy()] where [x] may be [None] *)
Definition to_numpy (x : option Tensor) : M NDArray :=
  t ← on_none x (AttributeError "cpu");
  mret (tensor_numpy t).

(** The dictionary [onnx_inputs] of the four encoder classes, in insertion
    order. *)
Definition build_onnx_inputs (input_ids attention_mask token_type_ids : option Tensor)
    : M (list (string * NDArray)) :=
  ids ← to_numpy input_ids;
  mask ← to_numpy attention_mask;
  let onnx_inputs := [("input_ids", ids); ("attention_mask", mask)] in
  match token_type_ids with
  | Some t => mret (onnx_inputs ++ [("token_type_ids", tensor_numpy t)])%list
  | None => mret onnx_inputs
  end.

(** [self.model.run(None, onnx_inputs)] *)
Definition run (self : ORTModel) (onnx_inputs : list (string * NDArray))
    : M (list NDArray) :=
  m ← on_none (model self) (AttributeError "run");
  log (EvSessionRun onnx_inputs);;
  on_none (session_run m onnx_inputs) (ExternalError "run").

(** [torch.from_numpy(outputs[self.model_outputs[key]])] *)
Definition output_tensor (self : ORTModel) (outputs : list NDArray) (key : string)
    : M Tensor :=
  idx ← on_none (model_outputs self !! key) (KeyError key);
  arr ← on_none (outputs !! idx) IndexError;
  mret (torch_from_numpy arr).

Definition ORTModelForFeatureExtraction_forward (self : nat)
    (input_ids attention_mask token_type_ids : option Tensor) : M ModelOutput :=
  onnx_inputs ← build_onnx_inputs input_ids attention_mask token_type_ids;
  a ← deref self;
  outputs ← run a onnx_inputs;
  last_hidden_state ← output_tensor a outputs "last_hidden_state";
  mret (BaseModelOutput last_hidden_state).

Definition ORTModelForQuestionAnswering_forward (self : nat)
    (input_ids attention_mask token_type_ids : option Tensor) : M ModelOutput :=
  onnx_inputs ← build_onnx_inputs input_ids attention_mask token_type_ids;
  a ← deref self;
  outputs ← run a onnx_inputs;
  start_logits ← output_tensor a outputs "start_logits";
  end_logits ← output_tensor a outputs "end_logits";
  mret (QuestionAnsweringModelOutput start_logits end_logits).

Definition ORTModelForSequenceClassification_forward (self : nat)
    (input_ids attention_mask token_type_ids : option Tensor) : M ModelOutput :=
  onnx_inputs ← build_onnx_inputs input_ids attention_mask token_type_ids;
  a ← deref self;
  outputs ← run a onnx_inputs;
  logits ← output_tensor a outputs "logits";
  mret (SequenceClassifierOutput logits).

Definition ORTModelForTokenClassification_forward (self : nat)
    (input_ids attention_mask token_type_ids : option Tensor) : M ModelOutput :=
  onnx_inputs ← build_onnx_inputs input_ids attention_mask token_type_ids;
  a ← deref self;
  outputs ← run a onnx_inputs;
  logits ← output_tensor a outputs "logits";
  mret (TokenClassifierOutput logits).

(** [ORTModelForCausalLM.forward(self, input_ids, attention_mask, **kwargs)] *)
Definition ORTModelForCausalLM_forward (self : nat)
    (input_ids attention_mask : option Tensor) : M ModelOutput :=
  ids ← to_numpy input_ids;
  mask ← to_numpy attention_mask;
  let onnx_inputs := [("input_ids", ids); ("attention_mask", mask)] in
  a ← deref self;
  outputs ← run a onnx_inputs;
  logits ← output_tensor a outputs "logits";
  mret (CausalLMOutputWithCrossAttentions logits).

(** Method dispatch of [self.forward(input_ids, attention_mask,
    token_type_ids)] on the class of the object.  The causal class takes
    [token_type_ids] into its [**kwargs] and drops it. *)
Definition forward (self : nat)
    (input_ids attention_mask token_type_ids : option Tensor) : M ModelOutput :=
  a ← deref self;
  match cls a with
  | ORTModelBase => raise NotImplementedError
  | ORTModelForFeatureExtraction =>
      ORTModelForFeatureExtraction_forward self input_ids attention_mask token_type_ids
  | ORTModelForQuestionAnswering =>
      ORTModelForQuestionAnswering_forward self input_ids attention_mask token_type_ids
  | ORTModelForSequenceClassification =>
      ORTModelForSequenceClassification_forward self input_ids attention_mask token_type_ids
  | ORTModelForTokenClassification =>
      ORTModelForTokenClassification_forward self input_ids attention_mask token_type_ids
  | ORTModelForCausalLM =>
      ORTModelForCausalLM_forward self input_ids attention_mask
  end.

(** The output names a class reads in its [forward]. *)
Definition required_outputs (c : ORTClass) : list string :=
  match c with
  | ORTModelBase => []
  | ORTModelForFeatureExtraction => ["last_hidden_state"]
  | ORTModelForQuestionAnswering => ["start_logits"; "end_logits"]
  | ORTModelForSequenceClassification => ["logits"]
  | ORTModelForTokenClassification => ["logits"]
  | ORTModelForCausalLM => ["logits"]
  end.

(** Whether the [forward] of a class has a [token_type_ids] parameter of its
    own. *)
Definition takes_token_type_ids (c : ORTClass) : bool :=
  match c with
  | ORTModelBase => false
  | ORTModelForFeatureExtraction => true
  | ORTModelForQuestionAnswering => true
  | ORTModelForSequenceClassification => true
  | ORTModelForTokenClassification => true
  | ORTModelForCausalLM => false
  end.

End Adapter.

(** ** A small concrete world

    An instance of the external tools that can be run: the bytes of a model
    file are the name of its single declared output, the optimizer and the
    quantizer append a suffix to those bytes, and a run of a session returns
    the first input.  It gives the general theorems an input on which they
    can be executed. *)

Definition toy_registry : gmap string (string * string * string) :=
  {[ "bert" := ("num_attention_heads", "hidden_size", "bert");
     "distilbert" := ("n_heads", "dim", "bert") ]}.

Definition toy (gpu : bool) : Externals :=
  {| InferenceSession := string;
     ort_InferenceSession := λ bytes _, Some bytes;
     get_inputs := λ _, ["input_ids"; "attention_mask"];
     get_outputs := λ s, [s];
     Tensor := Z;
     NDArray := Z;
     tensor_numpy := λ t, t;
     torch_from_numpy := λ x, x;
     session_run := λ _ onnx_inputs, Some (take 1 onnx_inputs.*2);
     FusionOptions := option PyVal;
     FusionOptions_parse := oc_model_type;
     OnnxModel := string;
     optimize_model := λ bytes _, Some (bytes +:+ "+fused");
     convert_float_to_float16 := λ m, m +:+ "+fp16";
     is_fully_optimized := λ _, true;
     save_model_bytes := λ m, m;
     ModelProto := string;
     onnx_load := λ bytes, Some bytes;
     quantize_model := λ args, Some (qa_model args +:+ "+int8");
     hf_hub_download := λ args, Some (["hub"; da_filename args], "logits");
     PretrainedConfig_from_dict := λ d, d;
     default_cache_path := ["cache"];
     ONNX_WEIGHTS_NAME := "model.onnx";
     OPTIMIZED_ONNX_WEIGHTS_NAME := "model-optimized.onnx";
     QUANTIZED_ONNX_WEIGHTS_NAME := "model-quantized.onnx";
     _is_gpu_available := gpu;
     ORTConfigManager_conf := toy_registry |}.

Definition toy_config_dict : gmap string PyVal :=
  {[ "model_type" := VStr "distilbert"; "n_heads" := VInt 12; "dim" := VInt 768 ]}.

Definition toy_optimization_config : OptimizationConfig :=
  {| optimization_level := 99;
     optimize_for_gpu := false;
     optimize_with_onnxruntime_only := false;
     fusion_toggles := {[ "disable_gelu" := false ]};
     oc_model_type := None |}.

Definition toy_quantization_config (static : bool) : QuantizationConfig :=
  {| is_static := static;
     per_channel := false;
     mode := IntegerOps;
     weights_dtype := QInt8;
     activations_dtype := QUInt8;
     reduce_range := false;
     nodes_to_quantize := ["MatMul_1"];
     nodes_to_exclude := ["MatMul_7"];
     operators_to_quantize := [OperatorEnum "MatMul"; OperatorName "Gemm"];
     weights_symmetric := true;
     activations_symmetric := false |}.

(** A directory [repo] with two model files that declare different outputs,
    an empty cache directory, an empty target directory, and one
    optimization configuration object in the store. *)
Definition toy_world (gpu : bool) : @World (toy gpu) :=
  {| files := {[ ["repo"; "model.onnx"] := "logits";
                 ["repo"; "other.onnx"] := "last_hidden_state" ]};
     dirs := {[ ["repo"]; ["cache"]; ["export"] ]};
     adapters := ∅;
     opt_configs := {[ 0 := toy_optimization_config ]};
     trace := [] |}.

Definition toy_kwargs : Kwargs :=
  {| kw_config := Some toy_config_dict;
     kw_model_save_dir := None;
     kw_latest_model_name := None |}.

(** [ORTModelForSequenceClassification.from_pretrained("repo")]: the world
    after the load; the new adapter is object [0]. *)
Definition toy_loaded (gpu : bool) : @World (toy gpu) :=
  (@_from_pretrained (toy gpu) ORTModelForSequenceClassification ["repo"]
     VNone None true None None toy_kwargs (toy_world gpu)).2.

(** [ORTModelForFeatureExtraction.from_pretrained("repo",
    file_name="other.onnx")]. *)
Definition toy_loaded_other : @World (toy false) :=
  (@_from_pretrained (toy false) ORTModelForFeatureExtraction ["repo"]
     VNone None true None (Some "other.onnx") toy_kwargs (toy_world false)).2.

(** ... followed by [model.optimize(config)]. *)
Definition toy_optimized : @World (toy false) :=
  (@optimize (toy false) 0 (Some 0) [] (toy_loaded false)).2.

(** A load whose configuration names a model type that the toy registry
    does not list. *)
Definition toy_unregistered_config : gmap string PyVal :=
  {[ "model_type" := VStr "gpt2"; "n_head" := VInt 12 ]}.

Definition toy_loaded_unregistered : @World (toy false) :=
  (@_from_pretrained (toy false) ORTModelForCausalLM ["repo"]
     VNone None true None None
     {| kw_config := Some toy_unregistered_config;
        kw_model_save_dir := None;
        kw_latest_model_name := None |}
     (toy_world false)).2.

(** ** Vocabulary of the statements *)

Section Vocabulary.
Context `{E : Externals}.

(** The provider [load_model] picks when none is given. *)
Definition default_provider : string :=
  if _is_gpu_available then "CUDAExecutionProvider" else "CPUExecutionProvider".

(** The file that [optimize], [quantize] and [_save_pretrained] read:
    [self.model_save_dir.joinpath(self.latest_model_name)]. *)
Definition current_artifact (a : ORTModel) : option Path :=
  (λ d, joinpath d (latest_model_name a)) <$> model_save_dir a.

(** The adapter object [a] once session [s], loaded from [out], has been
    made current. *)
Definition repointed (a : ORTModel) (s : InferenceSession) (out : Path) : ORTModel :=
  {| cls := cls a;
     model := Some s;
     config := config a;
     model_save_dir := Some (path_parent out);
     latest_model_name := path_name out;
     model_outputs := model_outputs a;
     model_inputs := model_inputs a |}.

(** The fixed places where the two passes persist their result. *)
Definition optimized_path : Path :=
  joinpath default_cache_path OPTIMIZED_ONNX_WEIGHTS_NAME.
Definition quantized_path : Path :=
  joinpath default_cache_path QUANTIZED_ONNX_WEIGHTS_NAME.

(** What [optimize] hands to [optimize_model] for adapter [a], whose
    registry entry carries the tag [tag], and configuration [oc]. *)
Definition optimize_args (input : Path) (tag : string) (num_heads hidden_size : PyVal)
    (oc : OptimizationConfig) : OptimizeArgs FusionOptions :=
  {| oa_input := input;
     oa_model_type := tag;
     oa_num_heads := num_heads;
     oa_hidden_size := hidden_size;
     oa_opt_level := optimization_level oc;
     oa_use_gpu := optimize_for_gpu oc;
     oa_optimization_options := FusionOptions_parse oc;
     oa_only_onnxruntime := optimize_with_onnxruntime_only oc |}.

(** [convert_float_to_float16] is applied exactly when a GPU is present. *)
Definition for_gpu (m : OnnxModel) : OnnxModel :=
  if _is_gpu_available then convert_float_to_float16 m else m.

End Vocabulary.

Section PassWorld.
Context `{E : Externals}.

(** The world after a pass that wrote [bytes] to [out], replaced adapter
    [self] by [a'], left the configuration store as [cfgs] and made the
    external calls [evs]. *)
Definition world_after_pass (w : World) (self : nat) (a' : ORTModel)
    (out : Path) (bytes : string) (cfgs : gmap nat OptimizationConfig)
    (evs : list Event) : World :=
  {| files := <[out := bytes]> (files w);
     dirs := dirs w;
     adapters := <[self := a']> (adapters w);
     opt_configs := cfgs;
     trace := trace w ++ evs |}.

End PassWorld.

Section Passes.
Context `{E : Externals}.

(** The two passes that supersede the current artifact. *)
Inductive Pass :=
| Optimize (optimization_config : option nat)
| Quantize (quantization_config : QuantizationConfig).

Definition run_pass (self : nat) (p : Pass) (output_path : Path) : M nat :=
  match p with
  | Optimize optimization_config => optimize self optimization_config output_path
  | Quantize quantization_config => quantize self quantization_config output_path
  end.

Definition pass_file_name (p : Pass) : string :=
  match p with
  | Optimize _ => OPTIMIZED_ONNX_WEIGHTS_NAME
  | Quantize _ => QUANTIZED_ONNX_WEIGHTS_NAME
  end.

End Passes.

Section RunProperties.
Context `{E : Externals}.

(** [preserves R m]: a run of [m] takes a world to an [R]-related world,
    whether it returns or raises. *)
Definition preserves {A} (R : relation World) (m : M A) : Prop :=
  forall w, R w (m w).2.

(** A computation that never changes the world. *)
Definition pure_run {A} (m : M A) : Prop := forall w, (m w).2 = w.

(** The log grew by events that all satisfy [P]. *)
Definition trace_extends (P : Event -> Prop) : relation World :=
  λ w w', exists evs, trace w' = (trace w ++ evs)%list /\ Forall P evs.

(** Two configuration objects agree on every attribute but [model_type]. *)
Definition same_knobs (c c' : OptimizationConfig) : Prop :=
  optimization_level c' = optimization_level c /\
  optimize_for_gpu c' = optimize_for_gpu c /\
  optimize_with_onnxruntime_only c' = optimize_with_onnxruntime_only c /\
  fusion_toggles c' = fusion_toggles c.

(** Every configuration object of the store is still there, with every
    attribute but [model_type] as it was. *)
Definition knobs_kept : relation World :=
  λ w w', forall r c, opt_configs w !! r = Some c ->
    exists c', opt_configs w' !! r = Some c' /\ same_knobs c c'.

(** [d[k]] for a dictionary literal kept in insertion order. *)
Fixpoint dict_get (k : string) (d : list (string * bool)) : option bool :=
  match d with
  | [] => None
  | (k', v) :: d' => if decide (k' = k) then Some v else dict_get k d'
  end.

(** The arguments of a quantizer constructed for the configuration [qc]. *)
Definition quantizer_given (qc : QuantizationConfig)
    (args : QuantizerArgs ModelProto) : Prop :=
  dict_get "ForceSymmetric" (qa_extra_options args)
    = Some (activations_symmetric qc && weights_symmetric qc) /\
  dict_get "WeightSymmetric" (qa_extra_options args) = Some (weights_symmetric qc) /\
  dict_get "ActivationSymmetric" (qa_extra_options args)
    = Some (activations_symmetric qc) /\
  qa_per_channel args = per_channel qc /\
  qa_mode args = mode qc /\
  qa_weight_qType args = weights_dtype qc /\
  qa_input_qType args = activations_dtype qc /\
  qa_nodes_to_quantize args = nodes_to_quantize qc /\
  qa_nodes_to_exclude args = nodes_to_exclude qc.

(** Every quantizer in the log was constructed for [qc]. *)
Definition quantizer_event (qc : QuantizationConfig) (ev : Event) : Prop :=
  match ev with
  | EvONNXQuantizer args => quantizer_given qc args
  | _ => True
  end.


End RunProperties.

(** [model.save_pretrained("export", file_name="copy.onnx")] on the adapter
    that was loaded with [file_name="other.onnx"], and a load of what was
    saved. *)
Definition toy_saved : @World (toy false) :=
  (@_save_pretrained (toy false) 0 ["export"] (Some "copy.onnx") toy_loaded_other).2.

Definition toy_reloaded : @World (toy false) :=
  (@_from_pretrained (toy false) ORTModelForFeatureExtraction ["export"]
     VNone None true None (Some "copy.onnx") toy_kwargs toy_saved).2.

(** The declared output names of the session of adapter [self]. *)
Definition declared_outputs `{E : Externals} (w : World) (self : nat)
    : option (list string) :=
  a ← adapters w !! self; s ← model a; Some (get_outputs s).

Definition declared_inputs `{E : Externals} (w : World) (self : nat)
    : option (list string) :=
  a ← adapters w !! self; s ← model a; Some (get_inputs s).

(** ** Vocabulary of the further properties *)

Section MoreVocabulary.
Context `{E : Externals}.

(** [result.n]: the field named [n] of a result structure. *)
Definition output_field (r : ModelOutput) (n : string) : option Tensor :=
  match r with
  | BaseModelOutput t => if decide (n = "last_hidden_state") then Some t else None
  | QuestionAnsweringModelOutput s e =>
      if decide (n = "start_logits") then Some s
      else if decide (n = "end_logits") then Some e else None
  | SequenceClassifierOutput t => if decide (n = "logits") then Some t else None
  | TokenClassifierOutput t => if decide (n = "logits") then Some t else None
  | CausalLMOutputWithCrossAttentions t => if decide (n = "logits") then Some t else None
  end.

(** The input map that [forward] of class [c] hands to the engine when
    [input_ids] and [attention_mask] are given. *)
Definition onnx_inputs_of (c : ORTClass) (ids mask : Tensor)
    (token_type_ids : option Tensor) : list (string * NDArray) :=
  match token_type_ids with
  | Some t =>
      if takes_token_type_ids c
      then [("input_ids", tensor_numpy ids); ("attention_mask", tensor_numpy mask);
            ("token_type_ids", tensor_numpy t)]
      else [("input_ids", tensor_numpy ids); ("attention_mask", tensor_numpy mask)]
  | None => [("input_ids", tensor_numpy ids); ("attention_mask", tensor_numpy mask)]
  end.

(** The adapter objects, the directories and every file but [out] are as
    they were. *)
Definition kept_but (out : Path) : relation World := λ w w',
  adapters w' = adapters w /\ dirs w' = dirs w /\
  forall q, q <> out -> files w' !! q = files w !! q.

(** [on_raise R m]: a run of [m] that raises takes a world to an
    [R]-related world. *)
Definition on_raise {A} (R : relation World) (m : M A) : Prop :=
  forall w e w', m w = (Raise e, w') -> R w w'.

End MoreVocabulary.

Section PassEvents.
Context `{E : Externals}.

(** The calls that a run of [quantize] for [qc] may make: a quantizer in
    dynamic mode with the fixed arguments, a save and a load at the fixed
    path on the CPU provider; no optimizer, no download, no inference. *)
Definition quantize_event (qc : QuantizationConfig) (ev : Event) : Prop :=
  match ev with
  | EvONNXQuantizer args =>
      qa_static args = false /\
      qa_tensors_range args = VNone /\
      qa_reduce_range args = reduce_range qc /\
      qa_op_types_to_quantize args = op_type <$> operators_to_quantize qc /\
      dict_get "EnableSubgraph" (qa_extra_options args) = Some false
  | EvSaveModelToFile p => p = quantized_path
  | EvInferenceSession p provider =>
      p = quantized_path /\ provider = "CPUExecutionProvider"
  | EvOnnxLoad _ => True
  | EvQuantizeModel => True
  | EvOptimizeModel _ => False
  | EvHubDownload _ => False
  | EvSessionRun _ => False
  end.

(** The arguments of the download that [_from_pretrained] asks for. *)
Definition download_args (model_id : Path) (use_auth_token : PyVal)
    (revision : option string) (force_download : bool) (cache_dir : option string)
    (file_name : option string) : DownloadArgs :=
  {| da_repo_id := model_id;
     da_filename := default ONNX_WEIGHTS_NAME file_name;
     da_use_auth_token := use_auth_token;
     da_revision := revision;
     da_cache_dir := cache_dir;
     da_force_download := force_download |}.

End PassEvents.

Section Providers.
Context `{E : Externals}.

(** The provider [load_model] uses: the one given, else the default. *)
Definition provider_or_default (provider : option string) : string :=
  default default_provider provider.

End Providers.

(** Adapter [self] is in step with its files: its session is the one the
    engine opens from the bytes of its current artifact. *)
Definition in_step `{E : Externals} (w : World) (self : nat) : Prop :=
  exists a s src bytes,
    adapters w !! self = Some a /\
    model a = Some s /\
    current_artifact a = Some src /\
    files w !! src = Some bytes /\
    ort_InferenceSession bytes default_provider = Some s.

(** ** Generation with the causal class *)

Section Generation.
Context `{E : Externals}.

(** [d.get(k)] for a dictionary of tensors kept in insertion order. *)
Fixpoint inputs_get (k : string) (d : list (string * Tensor)) : option Tensor :=
  match d with
  | [] => None
  | (k', v) :: d' => if decide (k' = k) then Some v else inputs_get k d'
  end.

(** [ORTModelForCausalLM.prepare_inputs_for_generation(self, input_ids,
    **kwargs)].  A keyword argument is present with a tensor, present with
    [None], or absent. *)
Definition prepare_inputs_for_generation (input_ids : Tensor)
    (kwargs : gmap string (option Tensor)) : list (string * Tensor) :=
  let inputs := [("input_ids", input_ids)] in
  match default None (kwargs !! "attention_mask") with
  | Some attention_mask => (inputs ++ [("attention_mask", attention_mask)])%list
  | None => inputs
  end.

(** [self.forward] called with the dictionary [inputs] as its keyword
    arguments; a parameter without a key takes its default, [None]. *)
Definition forward_with (self : nat) (inputs : list (string * Tensor)) : M ModelOutput :=
  forward self (inputs_get "input_ids" inputs) (inputs_get "attention_mask" inputs)
    (inputs_get "token_type_ids" inputs).

End Generation.

(** ** Export from a Transformers model *)

(** The hub's model card, [AutoTokenizer] and the export toolchain of
    [transformers.onnx], as far as [_from_transformers] uses them.  A call
    that raises is [None]. *)
Class ExportTools := {
  Tokenizer : Type;
  PreTrainedModel : Type;
  ModelConfig : Type;
  OnnxConfig : Type;
  (* HfApi().model_info(model_id, revision=revision).pipeline_tag *)
  model_info_pipeline_tag : Path -> option string -> option (option string);
  (* AutoTokenizer.from_pretrained(model_id) *)
  AutoTokenizer_from_pretrained : Path -> option Tokenizer;
  (* FeaturesManager.get_model_from_feature(task, model_id) *)
  FeaturesManager_get_model_from_feature : option string -> Path -> option PreTrainedModel;
  (* FeaturesManager.check_supported_model_or_raise(model, feature=task)[1] *)
  FeaturesManager_check_supported_model_or_raise :
    PreTrainedModel -> option string -> option (ModelConfig -> OnnxConfig);
  (* model.config *)
  pretrained_model_config : PreTrainedModel -> ModelConfig;
  (* onnx_config.default_onnx_opset *)
  default_onnx_opset : OnnxConfig -> Z;
  (* export(preprocessor, model, config, opset, output): the bytes written *)
  export : Tokenizer -> PreTrainedModel -> OnnxConfig -> Z -> option string;
  (* config.__dict__ *)
  config_dict : ModelConfig -> gmap string PyVal;
  (* The attribute [pipeline_task] as [OptimizedModel] has it
     ([optimum/modeling_base.py], not among the sources): [None] when it has
     none, so that the lookup on a class that sets none raises; else its
     value, which may be Python's [None]. *)
  OptimizedModel_pipeline_task : option (option string);
}.

Section Exporter.
Context `{E : Externals} `{X : ExportTools}.

(** The directories [p.mkdir(parents=True)] looks at: [p] and its parents. *)
Definition prefixes (p : Path) : list Path :=
  (λ n, take n p) <$> seq 1 (length p).

(** [p.mkdir(parents=True, exist_ok=True)]: the directory and its missing
    parents are created; a regular file in the way is an error of the file
    system. *)
Definition mkdir (p : Path) : M unit := λ w,
  if decide (Exists (λ q, is_Some (files w !! q)) (prefixes p))
  then (Raise (ExternalError "mkdir"), w)
  else (Ok tt, {| files := files w;
                  dirs := dirs w ∪ list_to_set (prefixes p);
                  adapters := adapters w;
                  opt_configs := opt_configs w;
                  trace := trace w |}).

(** The [pipeline_task] that a class sets in its own body: each of the
    five task classes sets one, [ORTModel] sets none. *)
Definition pipeline_task (c : ORTClass) : option string :=
  match c with
  | ORTModelBase => None
  | ORTModelForFeatureExtraction => Some "default"
  | ORTModelForQuestionAnswering => Some "question-answering"
  | ORTModelForSequenceClassification => Some "sequence-classification"
  | ORTModelForTokenClassification => Some "token-classification"
  | ORTModelForCausalLM => Some "causal-lm"
  end.

(** [cls.pipeline_task]: the attribute of the class itself, else the one
    inherited from [OptimizedModel]; when neither has it the lookup raises
    [AttributeError]. *)
Definition cls_pipeline_task (c : ORTClass) : M (option string) :=
  match pipeline_task c with
  | Some t => mret (Some t)
  | None => on_none OptimizedModel_pipeline_task (AttributeError "pipeline_task")
  end.

(** The export task for a pipeline tag read from the hub. *)
Definition task_of_pipeline_tag (tag : option string) : option string :=
  match tag with
  | Some t =>
      if bool_decide (t ∈ ["sentiment-analysis"; "text-classification";
                           "zero-shot-classification"])
      then Some "sequence-classification"
      else if bool_decide (t ∈ ["feature-extraction"; "fill-mask"])
      then Some "default"
      else Some t
  | None => None
  end.

(** [cls._from_transformers(model_id, save_dir, use_auth_token, revision,
    force_download, cache_dir, **kwargs)].  [model_id] is a relative path:
    the name of a repository or of a directory.  The keyword arguments are
    handed on to [_from_pretrained], which takes [file_name] out of them as
    its own parameter: [kwargs_file_name] is that key, [kwargs] the others. *)
Definition _from_transformers (c : ORTClass) (model_id : Path) (save_dir : Path)
    (use_auth_token : PyVal) (revision : option string) (force_download : bool)
    (cache_dir : option string) (kwargs : Kwargs)
    (kwargs_file_name : option string) : M nat :=
  let save_dir := (save_dir ++ model_id)%list in
  mkdir save_dir;;
  let kwargs :=
    {| kw_config := kw_config kwargs;
       kw_model_save_dir := Some save_dir;
       kw_latest_model_name := kw_latest_model_name kwargs |} in
  cls_task ← cls_pipeline_task c;
  task ← match cls_task with
         | Some t => mret (Some t)
         | None =>
             tag ← on_none (model_info_pipeline_tag model_id revision)
                           (ExternalError "model_info");
             mret (task_of_pipeline_tag tag)
         end;
  tokenizer ← on_none (AutoTokenizer_from_pretrained model_id)
                      (ExternalError "AutoTokenizer.from_pretrained");
  model ← on_none (FeaturesManager_get_model_from_feature task model_id)
                  (ExternalError "get_model_from_feature");
  model_onnx_config ← on_none (FeaturesManager_check_supported_model_or_raise model task)
                              (ExternalError "check_supported_model_or_raise");
  let onnx_config := model_onnx_config (pretrained_model_config model) in
  bytes ← on_none (export tokenizer model onnx_config (default_onnx_opset onnx_config))
                  (ExternalError "export");
  write_file (joinpath save_dir ONNX_WEIGHTS_NAME) bytes;;
  let kwargs :=
    {| kw_config := Some (config_dict (pretrained_model_config model));
       kw_model_save_dir := kw_model_save_dir kwargs;
       kw_latest_model_name := kw_latest_model_name kwargs |} in
  _from_pretrained c save_dir VNone None true None kwargs_file_name kwargs.

End Exporter.


(** ** Runs of the two passes that reach the external tools *)

Section PassRuns.
Context `{E : Externals}.

(** [optimize] on adapter [self] gets past the registry lookups and the
    reading of the two attributes, with a configuration object [c0] at
    reference [ocr], and calls the optimizer with [args]. *)
Definition reaches_optimizer (w : World) (self : nat) (oc : option nat)
    (ocr : nat) (c0 : OptimizationConfig) (args : OptimizeArgs FusionOptions) : Prop :=
  exists a d cfg nh hs tag vnh vhs,
    adapters w !! self = Some a /\
    model_save_dir a = Some d /\
    config a = Some cfg /\
    conf_lookup (model_type cfg) = Some (nh, hs, tag) /\
    cfg !! nh = Some vnh /\ cfg !! hs = Some vhs /\
    oc = Some ocr /\
    opt_configs w !! ocr = Some c0 /\
    args = optimize_args (joinpath d (latest_model_name a)) tag vnh vhs
             (set_oc_model_type (VStr tag) c0).

(** ... and the optimizer accepts the current artifact, giving [m], and the
    engine opens what is then saved, giving [s]. *)
Definition optimize_ready (w : World) (self : nat) (oc : option nat)
    (m : OnnxModel) (s : InferenceSession) : Prop :=
  exists ocr c0 args bytes,
    reaches_optimizer w self oc ocr c0 args /\
    files w !! oa_input args = Some bytes /\
    optimize_model bytes args = Some m /\
    ort_InferenceSession (save_model_bytes (for_gpu m)) default_provider = Some s.

(** [quantize] on adapter [self] is past its two guards, the current
    artifact is there and parses, the quantizer gives [m], and the engine
    opens what is then saved, giving [s]. *)
Definition quantize_ready (w : World) (self : nat) (qc : QuantizationConfig)
    (m : OnnxModel) (s : InferenceSession) : Prop :=
  is_static qc = false /\
  _is_gpu_available = false /\
  exists a d bytes onnx_model,
    adapters w !! self = Some a /\
    model_save_dir a = Some d /\
    files w !! joinpath d (latest_model_name a) = Some bytes /\
    onnx_load bytes = Some onnx_model /\
    quantize_model (quantizer_args onnx_model qc) = Some m /\
    ort_InferenceSession (save_model_bytes m) default_provider = Some s.

End PassRuns.

(** * Properties *)

(** ** Reasoning about runs *)

Section Runs.
Context `{E : Externals}.

Lemma bind_run {A B} (m : M A) (f : A -> M B) (w : World) :
  (m ≫= f) w =
  match m w with
  | (Ok a, w') => f a w'
  | (Raise e, w') => (Raise e, w')
  end.
Proof. reflexivity. Qed.

Lemma ret_bind {A B} (a : A) (f : A -> M B) : (mret a ≫= f) = f a.
Proof. reflexivity. Qed.

Lemma raise_bind {A B} (e : PyError) (f : A -> M B) : (raise e ≫= f) = raise e.
Proof. reflexivity. Qed.

Lemma bind_ok {A B} (m : M A) (f : A -> M B) (w w' : World) (b : B) :
  (m ≫= f) w = (Ok b, w') ->
  exists a w1, m w = (Ok a, w1) /\ f a w1 = (Ok b, w').
Proof.
  rewrite bind_run. destruct (m w) as [[a|e] w1]; intros H.
  - exists a, w1. split; [reflexivity | exact H].
  - discriminate H.
Qed.

Lemma on_none_ok {A} (x : option A) (e : PyError) (w w' : World) (a : A) :
  on_none x e w = (Ok a, w') -> x = Some a /\ w' = w.
Proof.
  destruct x as [a0|]; cbn; intros H; inversion H; subst; auto.
Qed.

Lemma deref_ok (self : nat) (w w' : World) (a : ORTModel) :
  deref self w = (Ok a, w') -> adapters w !! self = Some a /\ w' = w.
Proof. unfold deref. rewrite bind_run. cbn. apply on_none_ok. Qed.

Lemma deref_some (self : nat) (w : World) (a : ORTModel) :
  adapters w !! self = Some a -> deref self w = (Ok a, w).
Proof. intros H. unfold deref. rewrite bind_run. cbn. rewrite H. reflexivity. Qed.

Lemma path_parent_joinpath (p : Path) (n : string) :
  path_parent (joinpath p n) = p.
Proof. unfold path_parent, joinpath. apply removelast_last. Qed.

Lemma path_name_joinpath (p : Path) (n : string) :
  path_name (joinpath p n) = n.
Proof. unfold path_name, joinpath. apply last_last. Qed.


End Runs.

(** ** Guards of [quantize] and [optimize] *)

(** C2. A static quantization configuration, or a GPU reported present,
    makes [quantize] raise a [ValueError] at once: the world after the call
    is the world before it, so no external tool was called (the log is the
    same) and the adapter object (session handle, [model_save_dir],
    [latest_model_name]), the files and the store are untouched. *)
Theorem quantize_rejects_static_and_gpu `{E : Externals}
    (self : nat) (quantization_config : QuantizationConfig)
    (output_path : Path) (w : World) :
  is_static quantization_config = true \/ _is_gpu_available = true ->
  exists msg,
    quantize self quantization_config output_path w = (Raise (ValueError msg), w).
Proof.
  intros H. unfold quantize.
  destruct (is_static quantization_config) eqn:Hs.
  - eexists. reflexivity.
  - destruct H as [H|H]; [discriminate H|]. rewrite H. eexists. reflexivity.
Qed.

Lemma quantize_rejects_static_and_gpu_witness :
  (exists msg,
     @quantize (toy false) 0 (toy_quantization_config true) [] (toy_loaded false)
     = (Raise (ValueError msg), toy_loaded false)) /\
  (exists msg,
     @quantize (toy true) 0 (toy_quantization_config false) [] (toy_loaded true)
     = (Raise (ValueError msg), toy_loaded true)).
Proof.
  split.
  - apply (@quantize_rejects_static_and_gpu (toy false)). left. reflexivity.
  - apply (@quantize_rejects_static_and_gpu (toy true)). right. reflexivity.
Defined.

(** C3, as amended.  On an adapter whose configuration's model type is not
    a key of the registry, [optimize] raises, and the world after the call
    is the world before it: the optimizer was not called, no file was written
    and the adapter object is untouched.  The error is the
    unsupported-model-type error when the adapter has a save directory; when
    it has none, the call raises [AttributeError] on [joinpath] instead,
    before the registry is consulted. *)
Theorem optimize_rejects_unregistered_model_type `{E : Externals}
    (self : nat) (a : ORTModel) (cfg : PretrainedConfig)
    (optimization_config : option nat) (output_path : Path) (w : World) :
  adapters w !! self = Some a ->
  config a = Some cfg ->
  conf_lookup (model_type cfg) = None ->
  optimize self optimization_config output_path w
  = (Raise (match model_save_dir a with
            | Some _ => UnsupportedModelType (model_type cfg)
            | None => AttributeError "joinpath"
            end), w).
Proof.
  intros Ha Hc Hreg. unfold optimize.
  rewrite bind_run, (deref_some _ _ _ Ha).
  destruct (model_save_dir a) as [d|]; [|reflexivity].
  rewrite Hc. cbn [on_none]. rewrite !ret_bind.
  unfold check_supported_model_or_raise. rewrite Hreg. reflexivity.
Qed.

Lemma optimize_rejects_unregistered_model_type_witness :
  @optimize (toy false) 0 (Some 0) [] toy_loaded_unregistered
  = (Raise (UnsupportedModelType (model_type toy_unregistered_config)),
     toy_loaded_unregistered).
Proof.
  assert (Ha : exists a,
    adapters toy_loaded_unregistered !! 0%nat = Some a /\
    model_save_dir a = Some ["repo"] /\
    @config (toy false) a = Some toy_unregistered_config).
  { eexists. vm_compute. repeat split. }
  destruct Ha as (a & Ha & Hd & Hcfg).
  pose proof (@optimize_rejects_unregistered_model_type (toy false) 0 a
                toy_unregistered_config (Some 0%nat) [] toy_loaded_unregistered
                Ha Hcfg) as H.
  rewrite Hd in H. apply H. vm_compute. reflexivity.
Defined.

(** C3, as stated, fails: an adapter constructed from a session, without a
    save directory, whose model type the registry does not list.  [optimize]
    raises [AttributeError], not the unsupported-model-type error. *)
Lemma optimize_on_constructed_adapter_raises_attribute_error :
  let w := (@construct (toy false) ORTModelForCausalLM (Some "logits")
              (Some toy_unregistered_config) no_kwargs (toy_world false)).2 in
  (@config (toy false) <$> adapters w !! 0%nat) = Some (Some toy_unregistered_config) /\
  @conf_lookup (toy false) (model_type toy_unregistered_config) = None /\
  @optimize (toy false) 0 (Some 0%nat) [] w = (Raise (AttributeError "joinpath"), w) /\
  @optimize (toy false) 0 (Some 0%nat) [] w
  <> (Raise (UnsupportedModelType (model_type toy_unregistered_config)), w).
Proof. vm_compute. repeat split. discriminate. Qed.

(** ** Properties that hold of every run

    For a preorder [R], [preserves R] is closed under sequencing. *)

Section Preserves.
Context `{E : Externals}.

Lemma pure_ret {A} (a : A) : pure_run (mret a).
Proof. intros w. reflexivity. Qed.

Lemma pure_raise {A} (e : PyError) : pure_run (@raise _ A e).
Proof. intros w. reflexivity. Qed.

Lemma pure_lift {A} (r : Result A) : pure_run (lift r).
Proof. intros w. reflexivity. Qed.

Lemma pure_get_world : pure_run get_world.
Proof. intros w. reflexivity. Qed.

Lemma pure_on_none {A} (x : option A) (e : PyError) : pure_run (on_none x e).
Proof. intros w. destruct x; reflexivity. Qed.

Lemma pure_isdir (p : Path) : pure_run (isdir p).
Proof. intros w. reflexivity. Qed.

Lemma pure_bind {A B} (m : M A) (f : A -> M B) :
  pure_run m -> (forall a, pure_run (f a)) -> pure_run (m ≫= f).
Proof.
  intros Hm Hf w. rewrite bind_run. specialize (Hm w).
  destruct (m w) as [[a|e] w1]; cbn in *; subst; [apply Hf | reflexivity].
Qed.

Lemma pure_deref (self : nat) : pure_run (deref self).
Proof. apply pure_bind; [apply pure_get_world | intros; apply pure_on_none]. Qed.

Lemma pure_deref_config (r : nat) : pure_run (deref_config r).
Proof. apply pure_bind; [apply pure_get_world | intros; apply pure_on_none]. Qed.

Lemma pure_check_supported (mt : PyVal) : pure_run (check_supported_model_or_raise mt).
Proof. intros w. unfold check_supported_model_or_raise. destruct (conf_lookup mt); reflexivity. Qed.

Lemma pure_get_num_heads_name (mt : PyVal) : pure_run (get_num_heads_name mt).
Proof.
  intros w. unfold get_num_heads_name.
  destruct (conf_lookup mt) as [[[? ?] ?]|]; reflexivity.
Qed.

Lemma pure_get_hidden_size_name (mt : PyVal) : pure_run (get_hidden_size_name mt).
Proof.
  intros w. unfold get_hidden_size_name.
  destruct (conf_lookup mt) as [[[? ?] ?]|]; reflexivity.
Qed.

Lemma pure_get_model_ort_type (mt : PyVal) : pure_run (get_model_ort_type mt).
Proof.
  intros w. unfold get_model_ort_type.
  destruct (conf_lookup mt) as [[[? ?] ?]|]; reflexivity.
Qed.

Section Relation.
Variable R : relation World.
Hypothesis R_preorder : PreOrder R.

Lemma preserves_pure {A} (m : M A) : pure_run m -> preserves R m.
Proof. intros H w. rewrite H. reflexivity. Qed.

Lemma preserves_bind {A B} (m : M A) (f : A -> M B) :
  preserves R m -> (forall a, preserves R (f a)) -> preserves R (m ≫= f).
Proof.
  intros Hm Hf w. rewrite bind_run. specialize (Hm w).
  destruct (m w) as [[a|e] w1]; cbn in *.
  - etransitivity; [exact Hm | apply Hf].
  - exact Hm.
Qed.

End Relation.
End Preserves.

Create HintDb pure_run discriminated.
#[export] Hint Resolve pure_ret pure_raise pure_lift pure_get_world pure_on_none
  pure_isdir pure_deref pure_deref_config pure_check_supported
  pure_get_num_heads_name pure_get_hidden_size_name pure_get_model_ort_type
  : pure_run.

(** ** Successful runs of the two passes *)

Ltac bind_inv H x w1 H1 :=
  apply bind_ok in H as (x & w1 & H1 & H).

Section Inv.
Context `{E : Externals}.

Lemma check_supported_ok (mt : PyVal) (w w' : World) (u : ()) :
  check_supported_model_or_raise mt w = (Ok u, w') ->
  is_Some (conf_lookup mt) /\ w' = w.
Proof.
  unfold check_supported_model_or_raise.
  destruct (conf_lookup mt); cbn; intros H; inversion H; eauto.
Qed.

Lemma get_num_heads_name_ok (mt : PyVal) (w w' : World) (n : string) :
  get_num_heads_name mt w = (Ok n, w') ->
  (exists hs tag, conf_lookup mt = Some (n, hs, tag)) /\ w' = w.
Proof.
  unfold get_num_heads_name.
  destruct (conf_lookup mt) as [[[? ?] ?]|]; cbn; intros H; inversion H; eauto.
Qed.

Lemma get_hidden_size_name_ok (mt : PyVal) (w w' : World) (n : string) :
  get_hidden_size_name mt w = (Ok n, w') ->
  (exists nh tag, conf_lookup mt = Some (nh, n, tag)) /\ w' = w.
Proof.
  unfold get_hidden_size_name.
  destruct (conf_lookup mt) as [[[? ?] ?]|]; cbn; intros H; inversion H; eauto.
Qed.

Lemma get_model_ort_type_ok (mt : PyVal) (w w' : World) (n : string) :
  get_model_ort_type mt w = (Ok n, w') ->
  (exists nh hs, conf_lookup mt = Some (nh, hs, n)) /\ w' = w.
Proof.
  unfold get_model_ort_type.
  destruct (conf_lookup mt) as [[[? ?] ?]|]; cbn; intros H; inversion H; eauto.
Qed.

Lemma lift_getattr_ok (c : PretrainedConfig) (attr : string) (w w' : World) (v : PyVal) :
  lift (getattr c attr) w = (Ok v, w') -> c !! attr = Some v /\ w' = w.
Proof.
  unfold lift, getattr. destruct (c !! attr); intros H; inversion H; auto.
Qed.

Lemma deref_config_ok (r : nat) (w w' : World) (c : OptimizationConfig) :
  deref_config r w = (Ok c, w') -> opt_configs w !! r = Some c /\ w' = w.
Proof. unfold deref_config. rewrite bind_run. cbn. apply on_none_ok. Qed.

Lemma on_none_bind_ok {A B} (x : option A) (f : A -> option B) (e : PyError)
    (w w' : World) (b : B) :
  on_none (x ≫= f) e w = (Ok b, w') ->
  exists a, x = Some a /\ f a = Some b /\ w' = w.
Proof.
  intros H. apply on_none_ok in H as [H ->].
  destruct x as [a|]; [|discriminate H]. exists a. auto.
Qed.

Lemma world_eq (w1 w2 : World) :
  files w1 = files w2 -> dirs w1 = dirs w2 -> adapters w1 = adapters w2 ->
  opt_configs w1 = opt_configs w2 -> trace w1 = trace w2 -> w1 = w2.
Proof. destruct w1, w2; cbn; intros; subst; reflexivity. Qed.

(** Everything a successful [optimize] did, step by step. *)
Lemma optimize_ok_inv (self : nat) (oc : option nat) (out : Path)
    (w w' : World) (r : nat) :
  optimize self oc out w = (Ok r, w') ->
  r = self /\
  exists a d cfg nh hs tag vnh vhs ocr c0 bytes m s,
    adapters w !! self = Some a /\
    model_save_dir a = Some d /\
    config a = Some cfg /\
    conf_lookup (model_type cfg) = Some (nh, hs, tag) /\
    cfg !! nh = Some vnh /\ cfg !! hs = Some vhs /\
    oc = Some ocr /\
    opt_configs w !! ocr = Some c0 /\
    files w !! joinpath d (latest_model_name a) = Some bytes /\
    optimize_model bytes
      (optimize_args (joinpath d (latest_model_name a)) tag vnh vhs
         (set_oc_model_type (VStr tag) c0)) = Some m /\
    ort_InferenceSession (save_model_bytes (for_gpu m)) default_provider = Some s /\
    w' = world_after_pass w self (repointed a s optimized_path) optimized_path
           (save_model_bytes (for_gpu m))
           (<[ocr := set_oc_model_type (VStr tag) c0]> (opt_configs w))
           [EvOptimizeModel
              (optimize_args (joinpath d (latest_model_name a)) tag vnh vhs
                 (set_oc_model_type (VStr tag) c0));
            EvSaveModelToFile optimized_path;
            EvInferenceSession optimized_path default_provider].
Proof.
  unfold optimize. intros H.
  bind_inv H a w1 H1. apply deref_ok in H1 as [Ha ->].
  bind_inv H d w1 H1. apply on_none_ok in H1 as [Hd ->].
  cbv zeta in H.
  bind_inv H cfg w1 H1. apply on_none_ok in H1 as [Hcfg ->].
  bind_inv H u w1 H1. apply check_supported_ok in H1 as [_ ->].
  bind_inv H nh w1 H1. apply get_num_heads_name_ok in H1 as [(hs0 & tag0 & Hnh) ->].
  bind_inv H vnh w1 H1. apply lift_getattr_ok in H1 as [Hvnh ->].
  bind_inv H hs w1 H1. apply get_hidden_size_name_ok in H1 as [(nh1 & tag1 & Hhs) ->].
  bind_inv H vhs w1 H1. apply lift_getattr_ok in H1 as [Hvhs ->].
  bind_inv H tag w1 H1. apply get_model_ort_type_ok in H1 as [(nh2 & hs2 & Htag) ->].
  rewrite Hnh in Hhs, Htag. inversion Hhs; inversion Htag; subst; clear Hhs Htag.
  bind_inv H ocr w1 H1. apply on_none_ok in H1 as [-> ->].
  bind_inv H u1 w1 H1. cbn in H1. injection H1 as <- <-.
  bind_inv H c1 w1 H1. apply deref_config_ok in H1 as [Hc1 ->]. cbn in Hc1.
  bind_inv H m w1 H1. unfold call_optimize_model in H1.
  bind_inv H1 u2 w2 H2. cbn in H2. injection H2 as <- <-.
  bind_inv H1 w3 w4 H2. cbn in H2. injection H2 as <- <-.
  apply on_none_bind_ok in H1 as (bytes & Hbytes & Hm & ->). cbn in Hbytes.
  bind_inv H u3 w1 H1. unfold save_model_to_file in H1.
  bind_inv H1 u2 w2 H2. cbn in H2. injection H2 as <- <-.
  cbn in H1. injection H1 as <- <-.
  bind_inv H s w1 H1. unfold load_model, call_InferenceSession in H1.
  bind_inv H1 u2 w2 H2. cbn in H2. injection H2 as <- <-.
  bind_inv H1 w3 w4 H2. cbn in H2. injection H2 as <- <-.
  apply on_none_bind_ok in H1 as (bytes' & Hbytes' & Hs & ->). cbn in Hbytes'.
  bind_inv H u4 w1 H1. cbn in H1. injection H1 as <- <-.
  bind_inv H u5 w1 H1. cbn in H1. injection H1 as <- <-.
  bind_inv H u6 w1 H1. cbn in H1. injection H1 as <- <-.
  cbn in H. injection H as <- <-.
  rewrite lookup_insert_eq in Hbytes'. injection Hbytes' as <-.
  destruct (opt_configs w !! ocr) as [c0|] eqn:Hc0;
    [|rewrite lookup_alter_eq, Hc0 in Hc1; discriminate Hc1].
  rewrite lookup_alter_eq, Hc0 in Hc1. injection Hc1 as <-.
  split; [reflexivity|].
  do 13 eexists.
  repeat (split; [first [eassumption | reflexivity]|]).
  apply world_eq; cbn; try reflexivity.
  - rewrite (alter_alt_Some _ _ _ _ Ha), !alter_insert_eq. reflexivity.
  - apply (alter_alt_Some _ _ _ _ Hc0).
  - rewrite <- !app_assoc. reflexivity.
Qed.

(** Everything a successful [quantize] did, step by step. *)
Lemma quantize_ok_inv (self : nat) (qc : QuantizationConfig) (out : Path)
    (w w' : World) (r : nat) :
  quantize self qc out w = (Ok r, w') ->
  r = self /\ is_static qc = false /\ _is_gpu_available = false /\
  exists a d bytes onnx_model m s,
    adapters w !! self = Some a /\
    model_save_dir a = Some d /\
    files w !! joinpath d (latest_model_name a) = Some bytes /\
    onnx_load bytes = Some onnx_model /\
    quantize_model (quantizer_args onnx_model qc) = Some m /\
    ort_InferenceSession (save_model_bytes m) default_provider = Some s /\
    w' = world_after_pass w self (repointed a s quantized_path) quantized_path
           (save_model_bytes m) (opt_configs w)
           [EvOnnxLoad (joinpath d (latest_model_name a));
            EvONNXQuantizer (quantizer_args onnx_model qc);
            EvQuantizeModel;
            EvSaveModelToFile quantized_path;
            EvInferenceSession quantized_path default_provider].
Proof.
  unfold quantize. intros H.
  destruct (is_static qc) eqn:Hstatic; [discriminate H|].
  unfold default_provider.
  destruct _is_gpu_available eqn:Hgpu; [discriminate H|].
  bind_inv H a w1 H1. apply deref_ok in H1 as [Ha ->].
  bind_inv H d w1 H1. apply on_none_ok in H1 as [Hd ->].
  cbv zeta in H.
  bind_inv H onnx_model w1 H1. unfold call_onnx_load in H1.
  bind_inv H1 u2 w2 H2. cbn in H2. injection H2 as <- <-.
  bind_inv H1 w3 w4 H2. cbn in H2. injection H2 as <- <-.
  apply on_none_bind_ok in H1 as (bytes & Hbytes & Hload & ->). cbn in Hbytes.
  bind_inv H quantizer w1 H1. unfold call_ONNXQuantizer in H1.
  bind_inv H1 u2 w2 H2. cbn in H2. injection H2 as <- <-.
  cbn in H1. injection H1 as <- <-.
  bind_inv H m w1 H1. unfold call_quantize_model in H1.
  bind_inv H1 u2 w2 H2. cbn in H2. injection H2 as <- <-.
  apply on_none_ok in H1 as [Hm ->].
  bind_inv H u3 w1 H1. unfold save_model_to_file in H1.
  bind_inv H1 u2 w2 H2. cbn in H2. injection H2 as <- <-.
  cbn in H1. injection H1 as <- <-.
  bind_inv H s w1 H1. unfold load_model, call_InferenceSession in H1.
  bind_inv H1 u2 w2 H2. cbn in H2. injection H2 as <- <-.
  bind_inv H1 w3 w4 H2. cbn in H2. injection H2 as <- <-.
  apply on_none_bind_ok in H1 as (bytes' & Hbytes' & Hs & ->). cbn in Hbytes'.
  rewrite Hgpu in Hs.
  bind_inv H u4 w1 H1. cbn in H1. injection H1 as <- <-.
  bind_inv H u5 w1 H1. cbn in H1. injection H1 as <- <-.
  bind_inv H u6 w1 H1. cbn in H1. injection H1 as <- <-.
  cbn in H. injection H as <- <-.
  rewrite lookup_insert_eq in Hbytes'. injection Hbytes' as <-.
  do 3 (split; [reflexivity|]).
  do 6 eexists.
  repeat (split; [first [eassumption | reflexivity]|]).
  apply world_eq; cbn; try reflexivity.
  - rewrite (alter_alt_Some _ _ _ _ Ha), !alter_insert_eq. reflexivity.
  - rewrite <- !app_assoc, Hgpu. reflexivity.
Qed.

End Inv.

(** ** Runs of the passes that reach the external tools *)

Section Returns.
Context `{E : Externals}.

(** Any run of a call of the optimizer, and of the opening of a session. *)
Lemma call_optimize_model_run (args : OptimizeArgs FusionOptions) (w : World) :
  call_optimize_model args w
  = (match files w !! oa_input args ≫= λ bytes, optimize_model bytes args with
     | Some m => Ok m
     | None => Raise (ExternalError "optimize_model")
     end,
     (log (EvOptimizeModel args) w).2).
Proof.
  unfold call_optimize_model. rewrite bind_run. cbn [log]. rewrite bind_run.
  cbn [get_world files].
  match goal with |- context [on_none ?x] => destruct x end; reflexivity.
Qed.

Lemma call_onnx_load_run (path : Path) (w : World) :
  call_onnx_load path w
  = (match files w !! path ≫= onnx_load with
     | Some m => Ok m
     | None => Raise (ExternalError "onnx.load")
     end,
     (log (EvOnnxLoad path) w).2).
Proof.
  unfold call_onnx_load. rewrite bind_run. cbn [log]. rewrite bind_run.
  cbn [get_world files].
  match goal with |- context [on_none ?x] => destruct x end; reflexivity.
Qed.

Lemma call_InferenceSession_run (path : Path) (w : World) :
  load_model path None w
  = (match files w !! path ≫= λ bytes, ort_InferenceSession bytes default_provider with
     | Some s => Ok s
     | None => Raise (ExternalError "InferenceSession")
     end,
     (log (EvInferenceSession path default_provider) w).2).
Proof.
  unfold load_model, call_InferenceSession, default_provider.
  rewrite bind_run. cbn [log]. rewrite bind_run. cbn [get_world files].
  match goal with |- context [on_none ?x] => destruct x end; reflexivity.
Qed.

(** A run of [optimize] that is past the lookups: the configuration object
    is written, the optimizer is called, and the call fails in the optimizer,
    fails in the reload, or returns. *)
Lemma optimize_past_lookups (self : nat) (oc : option nat) (out : Path) (w : World)
    (a : ORTModel) (d : Path) (cfg : PretrainedConfig) (nh hs tag : string)
    (vnh vhs : PyVal) (ocr : nat) (c0 : OptimizationConfig) :
  adapters w !! self = Some a ->
  model_save_dir a = Some d ->
  config a = Some cfg ->
  conf_lookup (model_type cfg) = Some (nh, hs, tag) ->
  cfg !! nh = Some vnh -> cfg !! hs = Some vhs ->
  oc = Some ocr ->
  opt_configs w !! ocr = Some c0 ->
  let args := optimize_args (joinpath d (latest_model_name a)) tag vnh vhs
                (set_oc_model_type (VStr tag) c0) in
  let cfgs := <[ocr := set_oc_model_type (VStr tag) c0]> (opt_configs w) in
  optimize self oc out w
  = match files w !! joinpath d (latest_model_name a) ≫= λ bytes,
          optimize_model bytes args with
    | None =>
        (Raise (ExternalError "optimize_model"),
         {| files := files w; dirs := dirs w; adapters := adapters w;
            opt_configs := cfgs;
            trace := trace w ++ [EvOptimizeModel args] |})
    | Some m =>
        match ort_InferenceSession (save_model_bytes (for_gpu m)) default_provider with
        | None =>
            (Raise (ExternalError "InferenceSession"),
             {| files := <[optimized_path := save_model_bytes (for_gpu m)]> (files w);
                dirs := dirs w; adapters := adapters w;
                opt_configs := cfgs;
                trace := trace w ++
                  [EvOptimizeModel args; EvSaveModelToFile optimized_path;
                   EvInferenceSession optimized_path default_provider] |})
        | Some s =>
            (Ok self,
             world_after_pass w self (repointed a s optimized_path) optimized_path
               (save_model_bytes (for_gpu m)) cfgs
               [EvOptimizeModel args; EvSaveModelToFile optimized_path;
                EvInferenceSession optimized_path default_provider])
        end
    end.
Proof.
  intros Ha Hd Hcfg Hreg Hnh Hhs -> Hc0. cbv zeta.
  unfold optimize.
  rewrite bind_run, (deref_some _ _ _ Ha), Hd. cbn [on_none]. rewrite ret_bind.
  cbv zeta. rewrite Hcfg. cbn [on_none]. rewrite ret_bind.
  unfold check_supported_model_or_raise, get_num_heads_name, get_hidden_size_name,
    get_model_ort_type.
  unfold getattr.
  assert (Hlift : forall A B (v : A) (f : A -> M B), (lift (Ok v) ≫= f) = f v)
    by reflexivity.
  repeat first [rewrite Hreg | rewrite Hnh | rewrite Hhs | rewrite ret_bind
               | rewrite Hlift].
  rewrite bind_run. cbn [setattr_model_type].
  rewrite bind_run. unfold deref_config. rewrite bind_run. cbn [get_world opt_configs].
  rewrite lookup_alter_eq, Hc0. cbn [fmap option_fmap option_map on_none mret M_ret].
  rewrite (alter_alt_Some _ _ _ _ Hc0).
  rewrite bind_run, call_optimize_model_run. cbn [files oa_input log snd].
  unfold optimize_args, for_gpu, optimized_path.
  destruct (files w !! joinpath d (latest_model_name a)) as [bytes|];
    cbn [mbind option_bind]; [|reflexivity].
  match goal with |- context [optimize_model bytes ?ar] =>
    destruct (optimize_model bytes ar) as [m|]
  end; [|reflexivity].
  unfold save_model_to_file.
  rewrite !bind_run. cbn [log write_file files dirs adapters opt_configs trace].
  rewrite bind_run, call_InferenceSession_run. cbn [files log snd].
  rewrite lookup_insert_eq. cbn [mbind option_bind].
  match goal with |- context [ort_InferenceSession ?b ?p] =>
    destruct (ort_InferenceSession b p) as [s|]
  end.
  - cbv [mbind M_bind mret M_ret set_model set_model_save_dir set_latest_model_name
         update_adapter].
    cbn. f_equal. apply world_eq; cbn; try reflexivity.
    + rewrite (alter_alt_Some _ _ _ _ Ha), !alter_insert_eq. reflexivity.
    + rewrite <- !app_assoc. reflexivity.
  - f_equal. apply world_eq; cbn; try reflexivity.
    rewrite <- !app_assoc. reflexivity.
Qed.

Lemma optimize_returns (self : nat) (oc : option nat) (out : Path) (w : World)
    (m : OnnxModel) (s : InferenceSession) :
  optimize_ready w self oc m s ->
  exists a cfgs evs,
    adapters w !! self = Some a /\
    optimize self oc out w
    = (Ok self,
       world_after_pass w self (repointed a s optimized_path) optimized_path
         (save_model_bytes (for_gpu m)) cfgs evs).
Proof.
  intros (ocr & c0 & args & bytes & Hreach & Hbytes & Hm & Hs).
  destruct Hreach
    as (a & d & cfg & nh & hs & tag & vnh & vhs & Ha & Hd & Hcfg & Hreg & Hnh & Hhs
          & Hoc & Hc0 & ->).
  cbn [oa_input optimize_args] in Hbytes.
  exists a. eexists _, _. split; [exact Ha|].
  rewrite (optimize_past_lookups self oc out w a d cfg nh hs tag vnh vhs ocr c0
             Ha Hd Hcfg Hreg Hnh Hhs Hoc Hc0).
  cbv zeta. rewrite Hbytes. cbn [mbind option_bind]. rewrite Hm, Hs. reflexivity.
Qed.

Lemma quantize_returns (self : nat) (qc : QuantizationConfig) (out : Path) (w : World)
    (m : OnnxModel) (s : InferenceSession) :
  quantize_ready w self qc m s ->
  exists a evs,
    adapters w !! self = Some a /\
    quantize self qc out w
    = (Ok self,
       world_after_pass w self (repointed a s quantized_path) quantized_path
         (save_model_bytes m) (opt_configs w) evs).
Proof.
  intros (Hstatic & Hgpu & a & d & bytes & om & Ha & Hd & Hbytes & Hload & Hm & Hs).
  exists a. eexists. split; [exact Ha|].
  unfold quantize. rewrite Hstatic, Hgpu.
  rewrite bind_run, (deref_some _ _ _ Ha), Hd. cbn [on_none]. rewrite ret_bind.
  cbv zeta.
  rewrite bind_run, call_onnx_load_run. cbn [files log snd].
  rewrite Hbytes. cbn [mbind option_bind]. rewrite Hload.
  unfold call_ONNXQuantizer. rewrite !bind_run. cbn [log mret M_ret].
  unfold call_quantize_model. rewrite !bind_run. cbn [log].
  rewrite Hm. cbn [on_none mret M_ret].
  unfold save_model_to_file. rewrite !bind_run.
  cbn [log write_file files dirs adapters opt_configs trace].
  rewrite bind_run, call_InferenceSession_run. cbn [files log snd].
  rewrite lookup_insert_eq. cbn [mbind option_bind].
  unfold quantized_path in Hs |- *. rewrite Hs.
  cbv [mbind M_bind mret M_ret set_model set_model_save_dir set_latest_model_name
       update_adapter].
  cbn. f_equal. apply world_eq; cbn; try reflexivity.
  - rewrite (alter_alt_Some _ _ _ _ Ha), !alter_insert_eq. reflexivity.
  - rewrite <- !app_assoc. reflexivity.
Qed.

End Returns.

(** ** Supersession of the current artifact *)

Section Supersession.
Context `{E : Externals}.

(** A successful pass, whichever it is, in one shape. *)
Lemma run_pass_ok_inv (self : nat) (p : Pass) (out : Path) (w w' : World) (r : nat) :
  run_pass self p out w = (Ok r, w') ->
  r = self /\
  exists a m s cfgs evs,
    adapters w !! self = Some a /\
    ort_InferenceSession (save_model_bytes m) default_provider = Some s /\
    w' = world_after_pass w self
           (repointed a s (joinpath default_cache_path (pass_file_name p)))
           (joinpath default_cache_path (pass_file_name p))
           (save_model_bytes m) cfgs evs.
Proof.
  destruct p as [oc|qc]; cbn [run_pass pass_file_name]; intros H.
  - apply optimize_ok_inv in H
      as (-> & a & d & cfg & nh & hs & tag & vnh & vhs & ocr & c0 & bytes & m & s
             & Ha & _ & _ & _ & _ & _ & _ & _ & _ & _ & Hs & ->).
    split; [reflexivity|]. exists a, (for_gpu m), s. eauto.
  - apply quantize_ok_inv in H
      as (-> & _ & _ & a & d & bytes & om & m & s & Ha & _ & _ & _ & _ & Hs & ->).
    split; [reflexivity|]. exists a, m, s. eauto.
Qed.

End Supersession.

(** C1, as amended.  After a successful [optimize] or [quantize] the call
    has returned the adapter it was called on; the adapter's
    [model_save_dir] and [latest_model_name] name the file the pass wrote,
    [default_cache_path] joined with the pass's file name; its session is
    the one the engine opens from the bytes now in that file; and every
    file other than that one has the bytes it had before, no directory is
    gone.  In particular the previously current artifact is untouched
    whenever it is not that very file. *)
Theorem pass_supersedes_current_artifact `{E : Externals}
    (self : nat) (p : Pass) (output_path : Path) (w w' : World) (r : nat) :
  run_pass self p output_path w = (Ok r, w') ->
  r = self /\
  exists a a' bytes s,
    adapters w !! self = Some a /\
    adapters w' !! self = Some a' /\
    model_save_dir a' = Some default_cache_path /\
    latest_model_name a' = pass_file_name p /\
    files w' !! joinpath default_cache_path (pass_file_name p) = Some bytes /\
    ort_InferenceSession bytes default_provider = Some s /\
    model a' = Some s /\
    (forall q, q <> joinpath default_cache_path (pass_file_name p) ->
       files w' !! q = files w !! q) /\
    (forall old, current_artifact a = Some old ->
       old <> joinpath default_cache_path (pass_file_name p) ->
       files w' !! old = files w !! old) /\
    dirs w' = dirs w.
Proof.
  intros H.
  apply run_pass_ok_inv in H as (-> & a & m & s & cfgs & evs & Ha & Hs & ->).
  split; [reflexivity|].
  exists a, (repointed a s (joinpath default_cache_path (pass_file_name p))),
    (save_model_bytes m), s.
  cbn. rewrite path_parent_joinpath, path_name_joinpath, !lookup_insert_eq.
  repeat (split; [first [assumption | reflexivity] |]).
  split; [|split; [|reflexivity]].
  - intros q Hq. apply lookup_insert_ne. congruence.
  - intros old _ Hq. apply lookup_insert_ne. congruence.
Qed.

Lemma pass_supersedes_current_artifact_witness :
  @run_pass (toy false) 0 (Optimize (Some 0)) [] (toy_loaded false)
  = (Ok 0, toy_optimized) /\
  exists a a' bytes s,
    adapters (toy_loaded false) !! 0 = Some a /\
    adapters toy_optimized !! 0 = Some a' /\
    model_save_dir a' = Some ["cache"] /\
    latest_model_name a' = "model-optimized.onnx" /\
    files toy_optimized !! ["cache"; "model-optimized.onnx"] = Some bytes /\
    @ort_InferenceSession (toy false) bytes "CPUExecutionProvider" = Some s /\
    model a' = Some s /\
    files toy_optimized !! ["repo"; "model.onnx"]
    = files (toy_loaded false) !! ["repo"; "model.onnx"].
Proof.
  assert (Hrun : @run_pass (toy false) 0 (Optimize (Some 0)) [] (toy_loaded false)
                 = (Ok 0, toy_optimized)) by (vm_compute; reflexivity).
  split; [exact Hrun|].
  destruct (@pass_supersedes_current_artifact (toy false) 0 (Optimize (Some 0)) []
              (toy_loaded false) toy_optimized 0 Hrun)
    as (_ & a & a' & bytes & s & Ha & Ha' & Hd & Hn & Hf & Hs & Hm & Hframe & _ & _).
  exists a, a', bytes, s.
  repeat (split; [assumption|]).
  apply Hframe. discriminate.
Defined.

(** C1, as stated, fails: an adapter that was optimized once has its
    current artifact at the fixed path, and optimizing it again writes other
    bytes over that very file. *)
Lemma second_optimize_overwrites_current_artifact :
  @current_artifact (toy false) <$> adapters toy_optimized !! 0
  = Some (Some ["cache"; "model-optimized.onnx"]) /\
  (@optimize (toy false) 0 (Some 0) [] toy_optimized).1 = Ok 0 /\
  files toy_optimized !! ["cache"; "model-optimized.onnx"]
  = Some "logits+fused" /\
  files (@optimize (toy false) 0 (Some 0) [] toy_optimized).2
    !! ["cache"; "model-optimized.onnx"]
  = Some "logits+fused+fused".
Proof. vm_compute. repeat split. Qed.

(** C4. Where a pass writes does not depend on [output_path].  Whenever
    the optimizer accepts the adapter's current artifact and the engine opens
    the result, [optimize] returns, for every value of [output_path], and
    has written the bytes of the optimized model at [default_cache_path]
    joined with the optimized-weights name; whenever the quantizer accepts
    the current artifact and the engine opens the result, [quantize] returns,
    for every value of [output_path], and has written the bytes of the
    quantized model at [default_cache_path] joined with the quantized-weights
    name.  A run of either that returns has changed the files at that path
    and nowhere else, and the whole outcome of either is the same for any two
    values of [output_path].  Two [optimize] calls with different
    configurations therefore write the same file: after the second, the
    files are those before the first with that one file replaced. *)
Theorem output_path_is_ignored `{E : Externals} (self : nat) (w : World) :
  (forall oc output_path m s,
     optimize_ready w self oc m s ->
     exists w',
       optimize self oc output_path w = (Ok self, w') /\
       files w'
       = <[joinpath default_cache_path OPTIMIZED_ONNX_WEIGHTS_NAME
           := save_model_bytes (for_gpu m)]> (files w)) /\
  (forall qc output_path m s,
     quantize_ready w self qc m s ->
     exists w',
       quantize self qc output_path w = (Ok self, w') /\
       files w'
       = <[joinpath default_cache_path QUANTIZED_ONNX_WEIGHTS_NAME
           := save_model_bytes m]> (files w)) /\
  (forall oc output_path r w',
     optimize self oc output_path w = (Ok r, w') ->
     exists m, files w'
       = <[joinpath default_cache_path OPTIMIZED_ONNX_WEIGHTS_NAME
           := save_model_bytes m]> (files w)) /\
  (forall qc output_path r w',
     quantize self qc output_path w = (Ok r, w') ->
     exists m, files w'
       = <[joinpath default_cache_path QUANTIZED_ONNX_WEIGHTS_NAME
           := save_model_bytes m]> (files w)) /\
  (forall oc output_path output_path',
     optimize self oc output_path w = optimize self oc output_path' w) /\
  (forall qc output_path output_path',
     quantize self qc output_path w = quantize self qc output_path' w) /\
  (forall oc1 oc2 output_path1 output_path2 r1 r2 w1 w2,
     optimize self oc1 output_path1 w = (Ok r1, w1) ->
     optimize r1 oc2 output_path2 w1 = (Ok r2, w2) ->
     exists m1 m2,
       files w1
       = <[joinpath default_cache_path OPTIMIZED_ONNX_WEIGHTS_NAME
           := save_model_bytes m1]> (files w) /\
       files w2
       = <[joinpath default_cache_path OPTIMIZED_ONNX_WEIGHTS_NAME
           := save_model_bytes m2]> (files w)).
Proof.
  split; [|split; [|split; [|split; [|split; [|split]]]]].
  - intros oc out m s Hready.
    destruct (optimize_returns self oc out w m s Hready) as (a & cfgs & evs & _ & ->).
    eexists. split; reflexivity.
  - intros qc out m s Hready.
    destruct (quantize_returns self qc out w m s Hready) as (a & evs & _ & ->).
    eexists. split; reflexivity.
  - intros oc out r w' H.
    apply optimize_ok_inv in H
      as (_ & a & d & cfg & nh & hs & tag & vnh & vhs & ocr & c0 & bytes & m & s
            & _ & _ & _ & _ & _ & _ & _ & _ & _ & _ & _ & ->).
    exists (for_gpu m). reflexivity.
  - intros qc out r w' H.
    apply quantize_ok_inv in H
      as (_ & _ & _ & a & d & bytes & om & m & s & _ & _ & _ & _ & _ & _ & ->).
    exists m. reflexivity.
  - reflexivity.
  - reflexivity.
  - intros oc1 oc2 out1 out2 r1 r2 w1 w2 H1 H2.
    apply optimize_ok_inv in H1
      as (-> & a & d & cfg & nh & hs & tag & vnh & vhs & ocr & c0 & bytes & m & s
            & _ & _ & _ & _ & _ & _ & _ & _ & _ & _ & _ & ->).
    apply optimize_ok_inv in H2
      as (_ & a' & d' & cfg' & nh' & hs' & tag' & vnh' & vhs' & ocr' & c0' & bytes'
            & m' & s' & _ & _ & _ & _ & _ & _ & _ & _ & _ & _ & _ & ->).
    exists (for_gpu m), (for_gpu m'). cbn.
    split; [reflexivity|]. apply insert_insert_eq.
Qed.

Lemma output_path_is_ignored_witness :
  (exists w',
     @optimize (toy false) 0 (Some 0) ["elsewhere"] (toy_loaded false) = (Ok 0, w') /\
     files w'
     = <[ ["cache"; "model-optimized.onnx"] := "logits+fused" ]>
         (files (toy_loaded false))) /\
  (exists w',
     @quantize (toy false) 0 (toy_quantization_config false) ["elsewhere"]
       (toy_loaded false) = (Ok 0, w') /\
     files w'
     = <[ ["cache"; "model-quantized.onnx"] := "logits+int8" ]>
         (files (toy_loaded false))) /\
  @quantize (toy false) 0 (toy_quantization_config false) ["elsewhere"] (toy_loaded false)
  = @quantize (toy false) 0 (toy_quantization_config false) [] (toy_loaded false).
Proof.
  destruct (@output_path_is_ignored (toy false) 0 (toy_loaded false))
    as (Hopt & Hquant & _ & _ & _ & Hsame & _).
  split; [|split].
  - apply (Hopt (Some 0%nat) ["elsewhere"] "logits+fused" "logits+fused").
    exists 0%nat, toy_optimization_config. eexists _, "logits".
    split.
    + eexists _, ["repo"], toy_config_dict, "n_heads", "dim", "bert", _, _.
      repeat (split; [vm_compute; reflexivity|]). reflexivity.
    + repeat (split; [vm_compute; reflexivity|]). vm_compute. reflexivity.
  - apply (Hquant (toy_quantization_config false) ["elsewhere"] "logits+int8"
             "logits+int8").
    split; [reflexivity|]. split; [reflexivity|].
    eexists _, ["repo"], "logits", "logits".
    repeat (split; [vm_compute; reflexivity|]). vm_compute. reflexivity.
  - apply Hsame.
Defined.

(** ** The two preorders on worlds *)

Section Preorders.
Context `{E : Externals}.

#[global] Instance trace_extends_preorder (P : Event -> Prop) :
  PreOrder (trace_extends P).
Proof.
  split.
  - intros w. exists []. split; [symmetry; apply app_nil_r | constructor].
  - intros w1 w2 w3 (evs1 & H1 & HP1) (evs2 & H2 & HP2).
    exists (evs1 ++ evs2)%list. split.
    + rewrite H2, H1. symmetry. apply app_assoc.
    + apply Forall_app. auto.
Qed.

Lemma same_knobs_refl (c : OptimizationConfig) : same_knobs c c.
Proof. repeat split. Qed.

Lemma same_knobs_trans (c1 c2 c3 : OptimizationConfig) :
  same_knobs c1 c2 -> same_knobs c2 c3 -> same_knobs c1 c3.
Proof.
  unfold same_knobs. intros (? & ? & ? & ?) (? & ? & ? & ?).
  repeat split; congruence.
Qed.

#[global] Instance knobs_kept_preorder : PreOrder knobs_kept.
Proof.
  split.
  - intros w r c H. exists c. split; [exact H | apply same_knobs_refl].
  - intros w1 w2 w3 H12 H23 r c H.
    destruct (H12 r c H) as (c2 & H2 & Hk2).
    destruct (H23 r c2 H2) as (c3 & H3 & Hk3).
    exists c3. split; [exact H3 | eapply same_knobs_trans; eassumption].
Qed.

(** A step that leaves the log alone extends it by nothing. *)
Lemma trace_extends_unchanged {A} (P : Event -> Prop) (m : M A) :
  (forall w, trace (m w).2 = trace w) -> preserves (trace_extends P) m.
Proof.
  intros H w. exists []. split; [rewrite H; symmetry; apply app_nil_r | constructor].
Qed.

Lemma trace_extends_log (P : Event -> Prop) (ev : Event) :
  P ev -> preserves (trace_extends P) (log ev).
Proof. intros H w. exists [ev]. split; [reflexivity | repeat constructor; exact H]. Qed.

(** A step that leaves the configuration store alone keeps every knob. *)
Lemma knobs_kept_unchanged {A} (m : M A) :
  (forall w, opt_configs (m w).2 = opt_configs w) -> preserves knobs_kept m.
Proof.
  intros H w r c Hc. exists c. rewrite H. split; [exact Hc | apply same_knobs_refl].
Qed.

Lemma knobs_kept_setattr (r : nat) (v : PyVal) :
  preserves knobs_kept (setattr_model_type r v).
Proof.
  intros w r' c Hc. cbn. destruct (decide (r = r')) as [->|Hne].
  - exists (set_oc_model_type v c). rewrite lookup_alter_eq, Hc.
    split; [reflexivity | repeat split].
  - exists c. rewrite lookup_alter_ne by exact Hne.
    split; [exact Hc | apply same_knobs_refl].
Qed.

End Preorders.

(** Unfolds the calls into external tools and the attribute assignments,
    splits along the binds, and closes the steps that do not touch the
    component the relation is about. *)
Ltac preserves_body :=
  unfold call_optimize_model, save_model_to_file, load_model,
    call_InferenceSession, call_onnx_load, call_ONNXQuantizer,
    call_quantize_model, set_model, set_model_save_dir, set_latest_model_name;
  repeat first
    [ apply preserves_pure; [typeclasses eauto | solve [auto with pure_run]]
    | apply preserves_bind; [typeclasses eauto | | intros ? ]
    | apply trace_extends_unchanged; reflexivity
    | apply knobs_kept_unchanged; reflexivity
    | apply knobs_kept_setattr
    | progress cbv zeta ].

(** ** What the quantizer is given *)

Section Quantizer.
Context `{E : Externals}.

Lemma quantizer_args_given (onnx_model : ModelProto) (qc : QuantizationConfig) :
  quantizer_given qc (quantizer_args onnx_model qc).
Proof. repeat split. Qed.

Lemma quantize_trace (self : nat) (qc : QuantizationConfig) (out : Path) :
  preserves (trace_extends (quantizer_event qc)) (quantize self qc out).
Proof.
  unfold quantize.
  destruct (is_static qc); [apply preserves_pure; auto with pure_run; typeclasses eauto|].
  destruct _is_gpu_available; [apply preserves_pure; auto with pure_run; typeclasses eauto|].
  preserves_body; apply trace_extends_log; cbn; auto using quantizer_args_given.
Qed.

End Quantizer.

(** C5. In every run of [quantize], each quantizer constructed during the
    run is given the flag ["ForceSymmetric"] equal to the conjunction of the
    configuration's [activations_symmetric] and [weights_symmetric],
    together with the two symmetric flags, the per-channel flag, the mode,
    the two numeric types and the two node-name lists of the configuration
    as they are.  In a run that returns, the input model is loaded, then
    exactly one quantizer is constructed with those arguments and asked to
    quantize, before the result is saved and opened. *)
Theorem quantizer_receives_configuration `{E : Externals}
    (self : nat) (qc : QuantizationConfig) (output_path : Path) (w : World) :
  (exists evs,
     trace (quantize self qc output_path w).2 = (trace w ++ evs)%list /\
     forall args, EvONNXQuantizer args ∈ evs -> quantizer_given qc args) /\
  (forall r w',
     quantize self qc output_path w = (Ok r, w') ->
     is_static qc = false /\
     exists input args provider,
       trace w'
       = (trace w ++
           [EvOnnxLoad input; EvONNXQuantizer args; EvQuantizeModel;
            EvSaveModelToFile (joinpath default_cache_path QUANTIZED_ONNX_WEIGHTS_NAME);
            EvInferenceSession
              (joinpath default_cache_path QUANTIZED_ONNX_WEIGHTS_NAME) provider])%list /\
       quantizer_given qc args).
Proof.
  split.
  - destruct (quantize_trace self qc output_path w) as (evs & Hevs & HP).
    exists evs. split; [exact Hevs|].
    intros args Hin. rewrite Forall_forall in HP. exact (HP _ Hin).
  - intros r w' H.
    apply quantize_ok_inv in H
      as (_ & Hs & _ & a & d & bytes & om & m & s & _ & _ & _ & _ & _ & _ & ->).
    split; [exact Hs|].
    eexists _, _, _. split; [reflexivity | apply quantizer_args_given].
Qed.

Lemma quantizer_receives_configuration_witness :
  @quantize (toy false) 0 (toy_quantization_config false) [] (toy_loaded false)
  = (Ok 0,
     (@quantize (toy false) 0 (toy_quantization_config false) [] (toy_loaded false)).2) /\
  exists input args provider,
    trace (@quantize (toy false) 0 (toy_quantization_config false) []
             (toy_loaded false)).2
    = (trace (toy_loaded false) ++
        [EvOnnxLoad input; EvONNXQuantizer args; EvQuantizeModel;
         EvSaveModelToFile ["cache"; "model-quantized.onnx"];
         EvInferenceSession ["cache"; "model-quantized.onnx"] provider])%list /\
    @quantizer_given (toy false) (toy_quantization_config false) args.
Proof.
  assert (Hrun :
    @quantize (toy false) 0 (toy_quantization_config false) [] (toy_loaded false)
    = (Ok 0,
       (@quantize (toy false) 0 (toy_quantization_config false) []
          (toy_loaded false)).2)) by (vm_compute; reflexivity).
  split; [exact Hrun|].
  exact (proj2 (proj2 (@quantizer_receives_configuration (toy false) 0
                         (toy_quantization_config false) [] (toy_loaded false))
                  0 _ Hrun)).
Defined.

(** ** The optimization configuration object *)

Section Configuration.
Context `{E : Externals}.

Lemma optimize_knobs (self : nat) (oc : option nat) (out : Path) :
  preserves knobs_kept (optimize self oc out).
Proof. unfold optimize. preserves_body. Qed.

End Configuration.

(** C8, as amended.  Whatever the outcome of [optimize], every
    configuration object of the store is still there afterwards and its
    optimization level, its two flags and its fusion toggles are what they
    were.  The [model_type] attribute of the caller's object is overwritten:
    in every call that gets past the registry lookups and the reading of the
    two attributes, whether it then returns, fails in the optimizer or fails
    in the reload, the caller's object has the optimizer tag of the registry
    as its [model_type] afterwards, no other object of the store has
    changed, and the optimizer has been called with that tag and with the
    level and flags of the caller's object.  The adapter does not keep the
    object: after such a call the adapter objects are those before it, or
    those with the session, the save directory and the file name of this
    adapter replaced.  A run that returns is such a call. *)
Theorem optimize_overwrites_only_model_type `{E : Externals}
    (self : nat) (oc : option nat) (output_path : Path) (w : World) :
  (forall r c,
     opt_configs w !! r = Some c ->
     exists c',
       opt_configs (optimize self oc output_path w).2 !! r = Some c' /\
       optimization_level c' = optimization_level c /\
       optimize_for_gpu c' = optimize_for_gpu c /\
       optimize_with_onnxruntime_only c' = optimize_with_onnxruntime_only c /\
       fusion_toggles c' = fusion_toggles c) /\
  (forall ocr c0 args,
     reaches_optimizer w self oc ocr c0 args ->
     exists a cfg nh hs,
       adapters w !! self = Some a /\ config a = Some cfg /\
       conf_lookup (model_type cfg) = Some (nh, hs, oa_model_type args) /\
       opt_configs (optimize self oc output_path w).2 !! ocr
       = Some (set_oc_model_type (VStr (oa_model_type args)) c0) /\
       (forall r', r' <> ocr ->
          opt_configs (optimize self oc output_path w).2 !! r' = opt_configs w !! r') /\
       EvOptimizeModel args ∈ trace (optimize self oc output_path w).2 /\
       oa_opt_level args = optimization_level c0 /\
       oa_use_gpu args = optimize_for_gpu c0 /\
       oa_only_onnxruntime args = optimize_with_onnxruntime_only c0 /\
       (adapters (optimize self oc output_path w).2 = adapters w \/
        exists s,
          adapters (optimize self oc output_path w).2
          = <[self := repointed a s optimized_path]> (adapters w))) /\
  (forall r w',
     optimize self oc output_path w = (Ok r, w') ->
     exists ocr c0 nh hs tag a cfg args,
       reaches_optimizer w self oc ocr c0 args /\
       oc = Some ocr /\
       opt_configs w !! ocr = Some c0 /\
       adapters w !! self = Some a /\ config a = Some cfg /\
       conf_lookup (model_type cfg) = Some (nh, hs, tag) /\
       opt_configs w' !! ocr = Some (set_oc_model_type (VStr tag) c0) /\
       (forall r', r' <> ocr -> opt_configs w' !! r' = opt_configs w !! r') /\
       EvOptimizeModel args ∈ trace w' /\
       oa_model_type args = tag /\
       oa_opt_level args = optimization_level c0 /\
       oa_use_gpu args = optimize_for_gpu c0 /\
       oa_only_onnxruntime args = optimize_with_onnxruntime_only c0).
Proof.
  split; [|split].
  - intros r c Hc. exact (optimize_knobs self oc output_path w r c Hc).
  - intros ocr c0 args
      (a & d & cfg & nh & hs & tag & vnh & vhs & Ha & Hd & Hcfg & Hreg & Hnh & Hhs
         & Hoc & Hc0 & ->).
    exists a, cfg, nh, hs.
    rewrite (optimize_past_lookups self oc output_path w a d cfg nh hs tag vnh vhs
               ocr c0 Ha Hd Hcfg Hreg Hnh Hhs Hoc Hc0).
    cbv zeta. cbn [oa_model_type optimize_args].
    repeat (split; [first [assumption | reflexivity] |]).
    destruct (files w !! joinpath d (latest_model_name a) ≫= _) as [m|];
      [destruct (ort_InferenceSession _ _) as [s|]|];
      cbn [snd opt_configs trace adapters world_after_pass];
      (split; [apply lookup_insert_eq|]);
      (split; [intros r' Hr; apply lookup_insert_ne; congruence|]);
      (split; [apply elem_of_app; right; apply list_elem_of_here|]);
      repeat (split; [reflexivity|]);
      first [left; reflexivity | right; eexists; reflexivity].
  - intros r w' H.
    apply optimize_ok_inv in H
      as (_ & a & d & cfg & nh & hs & tag & vnh & vhs & ocr & c0 & bytes & m & s
            & Ha & Hd & Hcfg & Hreg & Hnh & Hhs & Hoc & Hc0 & _ & _ & _ & ->).
    exists ocr, c0, nh, hs, tag, a, cfg.
    eexists. cbn.
    split; [exists a, d, cfg, nh, hs, tag, vnh, vhs; auto 10|].
    repeat (split; [first [eassumption | reflexivity | apply lookup_insert_eq] |]).
    split; [intros r' Hr; apply lookup_insert_ne; congruence|].
    split; [|repeat split].
    apply elem_of_app. right. apply list_elem_of_here.
    all: reflexivity.
Qed.

Lemma optimize_overwrites_only_model_type_witness :
  opt_configs (toy_loaded false) !! 0%nat = Some toy_optimization_config /\
  (exists c',
     opt_configs (@optimize (toy false) 0 (Some 0) [] (toy_loaded false)).2 !! 0%nat
     = Some c' /\
     optimization_level c' = 99%Z /\
     optimize_for_gpu c' = false /\
     optimize_with_onnxruntime_only c' = false /\
     fusion_toggles c' = fusion_toggles toy_optimization_config) /\
  opt_configs (@optimize (toy false) 0 (Some 0) [] (toy_loaded false)).2 !! 0%nat
  = Some (set_oc_model_type (VStr "bert") toy_optimization_config).
Proof.
  assert (Hc : opt_configs (toy_loaded false) !! 0%nat = Some toy_optimization_config)
    by (vm_compute; reflexivity).
  destruct (@optimize_overwrites_only_model_type (toy false) 0 (Some 0) []
              (toy_loaded false)) as (Hknobs & Hpast & _).
  split; [exact Hc|]. split; [exact (Hknobs 0%nat toy_optimization_config Hc)|].
  destruct (Hpast 0%nat toy_optimization_config
              (@optimize_args (toy false) ["repo"; "model.onnx"] "bert" (VInt 12)
                 (VInt 768) (set_oc_model_type (VStr "bert") toy_optimization_config)))
    as (a & cfg & nh & hs & _ & _ & _ & Hset & _).
  - eexists _, ["repo"], toy_config_dict, "n_heads", "dim", "bert", _, _.
    repeat (split; [vm_compute; reflexivity|]). reflexivity.
  - exact Hset.
Defined.

(** C8, as stated, fails: the configuration object handed to [optimize] has
    no [model_type] before the call and has the optimizer tag ["bert"] as its
    [model_type] after it. *)
Lemma optimize_mutates_configuration :
  (@optimize (toy false) 0 (Some 0) [] (toy_loaded false)).1 = Ok 0%nat /\
  oc_model_type <$> opt_configs (toy_loaded false) !! 0%nat = Some None /\
  oc_model_type
    <$> opt_configs (@optimize (toy false) 0 (Some 0) [] (toy_loaded false)).2 !! 0%nat
  = Some (Some (VStr "bert")).
Proof. vm_compute. repeat split. Qed.

(** ** Loading and saving *)

Section Loading.
Context `{E : Externals}.

(** [__init__] of any class succeeds on a handle and records the base
    attributes. *)
Lemma class_init_some (c : ORTClass) (s : InferenceSession)
    (cfg : option PretrainedConfig) (kw : Kwargs) (w : World) :
  exists a,
    class_init c (Some s) cfg kw w = (Ok a, w) /\
    cls a = c /\ model a = Some s /\ config a = cfg /\
    model_save_dir a = kw_model_save_dir kw /\
    latest_model_name a = default "model.onnx" (kw_latest_model_name kw) /\
    (c <> ORTModelBase -> model_outputs a = name_index (get_outputs s)).
Proof.
  destruct c; eexists; (split; [reflexivity|]); cbn; repeat split; congruence.
Qed.

(** A successful load from a local directory. *)
Lemma from_pretrained_local_ok (c : ORTClass) (model_id : Path) (tok : PyVal)
    (rev : option string) (force : bool) (cache : option string)
    (file_name : option string) (kw : Kwargs) (w w' : World) (self : nat) :
  model_id ∈ dirs w ->
  _from_pretrained c model_id tok rev force cache file_name kw w = (Ok self, w') ->
  exists bytes s a,
    files w !! joinpath model_id (default ONNX_WEIGHTS_NAME file_name) = Some bytes /\
    ort_InferenceSession bytes default_provider = Some s /\
    adapters w !! self = None /\
    adapters w' !! self = Some a /\
    cls a = c /\ model a = Some s /\
    model_save_dir a = Some model_id /\
    latest_model_name a = default "model.onnx" (kw_latest_model_name kw) /\
    (c <> ORTModelBase -> model_outputs a = name_index (get_outputs s)) /\
    files w' = files w /\ dirs w' = dirs w /\
    trace w' = (trace w ++
      [EvInferenceSession (joinpath model_id (default ONNX_WEIGHTS_NAME file_name))
         default_provider])%list.
Proof.
  intros Hdir H. unfold _from_pretrained in H. cbv zeta in H.
  bind_inv H loc w1 H1. cbn in H1. injection H1 as <- <-.
  rewrite bool_decide_eq_true_2 in H by exact Hdir.
  bind_inv H s w1 H1. unfold load_model, call_InferenceSession in H1.
  bind_inv H1 u2 w2 H2. cbn in H2. injection H2 as <- <-.
  bind_inv H1 w3 w4 H2. cbn in H2. injection H2 as <- <-.
  apply on_none_bind_ok in H1 as (bytes & Hbytes & Hs & ->). cbn in Hbytes.
  unfold construct in H.
  bind_inv H a w1 H1.
  match type of H1 with class_init ?c0 _ ?cfg0 ?kw0 ?w0 = _ =>
    destruct (class_init_some c0 s cfg0 kw0 w0)
      as (a0 & Hinit & Hcls & Hmodel & _ & Hdir' & Hname & Hout)
  end.
  rewrite Hinit in H1. injection H1 as <- <-.
  cbn in H. injection H as <- <-.
  exists bytes, s, a0. cbn.
  rewrite lookup_insert_eq.
  repeat (split; [first [assumption | reflexivity] |]).
  split; [|repeat (split; [first [assumption | reflexivity] |]); reflexivity].
  apply not_elem_of_dom. apply is_fresh.
Qed.

(** A successful save copies the bytes of the current artifact. *)
Lemma save_pretrained_ok (self : nat) (save_directory : Path)
    (file_name : option string) (w w' : World) (u : ()) :
  _save_pretrained self save_directory file_name w = (Ok u, w') ->
  exists a src bytes,
    adapters w !! self = Some a /\
    current_artifact a = Some src /\
    files w !! src = Some bytes /\
    save_directory ∈ dirs w /\
    files w'
    = <[joinpath save_directory (default ONNX_WEIGHTS_NAME file_name) := bytes]> (files w) /\
    dirs w' = dirs w /\ adapters w' = adapters w /\ trace w' = trace w.
Proof.
  unfold _save_pretrained. cbv zeta. intros H.
  bind_inv H a w1 H1. apply deref_ok in H1 as [Ha ->].
  bind_inv H d w1 H1. apply on_none_ok in H1 as [Hd ->].
  unfold copyfile in H. rewrite bind_run in H. cbn in H.
  destruct (files w !! joinpath d (latest_model_name a)) as [bytes|] eqn:Hsrc;
    [|discriminate H].
  destruct (decide (joinpath d (latest_model_name a)
                    = joinpath save_directory (default ONNX_WEIGHTS_NAME file_name)));
    [discriminate H|].
  rewrite path_parent_joinpath in H.
  destruct (decide (save_directory ∈ dirs w)) as [Hin|]; [|discriminate H].
  cbn in H. injection H as <- <-.
  exists a, (joinpath d (latest_model_name a)), bytes. cbn.
  unfold current_artifact. rewrite Hd. cbn. auto 10.
Qed.



End Loading.

Section SaveRuns.
Context `{E : Externals}.

(** Any run of [copyfile]. *)
Lemma copyfile_run (src dst : Path) (w : World) :
  copyfile src dst w
  = match files w !! src with
    | None => (Raise (FileNotFoundError src), w)
    | Some bytes =>
        if decide (src = dst) then (Raise (SameFileError src), w)
        else if decide (path_parent dst ∈ dirs w) then write_file dst bytes w
        else (Raise (FileNotFoundError dst), w)
    end.
Proof.
  unfold copyfile. rewrite bind_run. cbn [get_world].
  destruct (files w !! src); [|reflexivity].
  destruct (decide (src = dst)); [reflexivity|].
  destruct (decide (path_parent dst ∈ dirs w)); reflexivity.
Qed.

(** Any run of [_save_pretrained] on an adapter with a current artifact. *)
Lemma save_pretrained_run (self : nat) (a : ORTModel) (src : Path)
    (save_directory : Path) (file_name : option string) (w : World) :
  adapters w !! self = Some a ->
  current_artifact a = Some src ->
  _save_pretrained self save_directory file_name w
  = copyfile src (joinpath save_directory (default ONNX_WEIGHTS_NAME file_name)) w.
Proof.
  intros Ha Hsrc. unfold current_artifact in Hsrc.
  destruct (model_save_dir a) as [d|] eqn:Hd; [|discriminate Hsrc].
  cbn in Hsrc. injection Hsrc as <-.
  unfold _save_pretrained. cbv zeta.
  rewrite bind_run, (deref_some _ _ _ Ha), Hd. cbn [on_none]. rewrite ret_bind.
  reflexivity.
Qed.

End SaveRuns.




(** ** Save, then load *)

(** The round trip does hold for an adapter whose session is the one the
    engine opens from its current artifact: a save to [save_directory] under
    [name] followed by a load of that file gives an adapter with the same
    session, hence the same declared input and output names. *)
Lemma save_then_load_in_sync `{E : Externals}
    (self : nat) (a : ORTModel) (src : Path) (bytes : string)
    (s : InferenceSession) (save_directory : Path) (name : string)
    (c : ORTClass) (use_auth_token : PyVal) (revision : option string)
    (force_download : bool) (cache_dir : option string) (kwargs : Kwargs)
    (w w1 w2 : World) (u : ()) (self' : nat) :
  adapters w !! self = Some a ->
  model a = Some s ->
  current_artifact a = Some src ->
  files w !! src = Some bytes ->
  ort_InferenceSession bytes default_provider = Some s ->
  _save_pretrained self save_directory (Some name) w = (Ok u, w1) ->
  _from_pretrained c save_directory use_auth_token revision force_download
    cache_dir (Some name) kwargs w1 = (Ok self', w2) ->
  declared_inputs w2 self' = declared_inputs w self /\
  declared_outputs w2 self' = declared_outputs w self.
Proof.
  intros Ha Hm Hcur Hfile Hsess Hsave Hload.
  apply save_pretrained_ok in Hsave
    as (a1 & src1 & bytes1 & Ha1 & Hsrc1 & Hfile1 & Hdir & Hfiles & Hdirs & _ & _).
  rewrite Ha in Ha1. injection Ha1 as <-.
  rewrite Hcur in Hsrc1. injection Hsrc1 as <-.
  rewrite Hfile in Hfile1. injection Hfile1 as <-.
  apply from_pretrained_local_ok in Hload
    as (bytes2 & s2 & a2 & Hbytes2 & Hs2 & _ & Ha2 & _ & Hm2 & _);
    [|rewrite Hdirs; exact Hdir].
  cbn in Hbytes2. rewrite Hfiles, lookup_insert_eq in Hbytes2.
  injection Hbytes2 as <-.
  rewrite Hsess in Hs2. injection Hs2 as <-.
  unfold declared_inputs, declared_outputs.
  rewrite Ha, Ha2. cbn. rewrite Hm, Hm2. split; reflexivity.
Qed.

(** C6 at the input where it fails.  The adapter is loaded from [repo] with
    [file_name="other.onnx"], whose session declares the output
    [last_hidden_state]; it is saved to [export] as [copy.onnx] and that
    file is loaded.  Both steps succeed, and the new session declares the
    output [logits]: what was saved is [repo/model.onnx]. *)
Lemma save_then_load_changes_outputs :
  declared_outputs toy_loaded_other 0 = Some ["last_hidden_state"] /\
  (@_save_pretrained (toy false) 0 ["export"] (Some "copy.onnx") toy_loaded_other).1
  = Ok () /\
  (@_from_pretrained (toy false) ORTModelForFeatureExtraction ["export"]
     VNone None true None (Some "copy.onnx") toy_kwargs toy_saved).1 = Ok 1%nat /\
  declared_outputs toy_reloaded 1 = Some ["logits"].
Proof. vm_compute. repeat split. Qed.

(** ** Inference *)

Section Inference.
Context `{E : Externals}.

Lemma imap_pair_snd {A B} (f : nat -> B) (l : list A) :
  (imap (λ i x, (f i, x)) l).*2 = l.
Proof.
  revert f. induction l as [|x l IH]; intros f; [reflexivity|].
  cbn. f_equal. apply (IH (f ∘ S)).
Qed.

Lemma foldl_insert_lookup_None (l : list (nat * string)) (d : gmap string nat)
    (n : string) :
  foldl (λ d '(idx, name), <[name := idx]> d) d l !! n = None
  <-> d !! n = None /\ n ∉ l.*2.
Proof.
  revert d. induction l as [|[i x] l IH]; intros d; cbn.
  - split; [intros H; split; [exact H | apply not_elem_of_nil] | intros [H _]; exact H].
  - rewrite IH, lookup_insert_None, not_elem_of_cons. intuition congruence.
Qed.

(** A name is a key of the dictionary exactly when it is declared. *)
Lemma name_index_None (names : list string) (n : string) :
  name_index names !! n = None <-> n ∉ names.
Proof.
  unfold name_index. rewrite foldl_insert_lookup_None.
  assert (Hs : (imap pair names).*2 = names)
    by exact (imap_pair_snd (λ i : nat, i) names).
  rewrite Hs, lookup_empty. tauto.
Qed.

Lemma name_index_is_Some (names : list string) (n : string) :
  n ∈ names -> is_Some (name_index names !! n).
Proof.
  intros Hin. destruct (name_index names !! n) eqn:H; [eauto|].
  apply name_index_None in H. contradiction.
Qed.

Lemma construct_some (c : ORTClass) (s : InferenceSession)
    (cfg : option PretrainedConfig) (kw : Kwargs) (w0 : World) :
  exists self a w,
    construct c (Some s) cfg kw w0 = (Ok self, w) /\
    adapters w !! self = Some a /\
    cls a = c /\ model a = Some s /\
    (c <> ORTModelBase -> model_outputs a = name_index (get_outputs s)).
Proof.
  destruct (class_init_some c s cfg kw w0) as (a & Hinit & Hcls & Hm & _ & _ & _ & Hout).
  eexists _, a, _. unfold construct. rewrite bind_run, Hinit. cbn.
  split; [reflexivity|]. cbn. rewrite lookup_insert_eq. auto.
Qed.

(** Reading a key that is not in [model_outputs] raises [KeyError]. *)
Lemma output_tensor_missing (a : ORTModel) (outputs : list NDArray) (key : string)
    (w : World) :
  model_outputs a !! key = None ->
  output_tensor a outputs key w = (Raise (KeyError key), w).
Proof. intros H. unfold output_tensor. rewrite bind_run, H. reflexivity. Qed.

Lemma output_tensor_run (a : ORTModel) (outputs : list NDArray) (key : string)
    (w : World) :
  (output_tensor a outputs key w).2 = w.
Proof.
  unfold output_tensor. rewrite bind_run.
  destruct (model_outputs a !! key) as [idx|]; cbn; [|reflexivity].
  rewrite bind_run. destruct (outputs !! idx); reflexivity.
Qed.

Lemma pure_run_ok {A} (m : M A) (w w1 : World) (a : A) :
  pure_run m -> m w = (Ok a, w1) -> w1 = w.
Proof. intros Hp H. specialize (Hp w). rewrite H in Hp. exact Hp. Qed.

Lemma pure_to_numpy (x : option Tensor) : pure_run (to_numpy x).
Proof. intros w. destruct x; reflexivity. Qed.

Lemma pure_build_onnx_inputs (input_ids attention_mask token_type_ids : option Tensor) :
  pure_run (build_onnx_inputs input_ids attention_mask token_type_ids).
Proof.
  intros w. destruct input_ids, attention_mask, token_type_ids; reflexivity.
Qed.

(** A sequence does not return when, after any first step that returns, the
    rest does not. *)
Lemma bind_never_ok_at {A B} (m : M A) (f : A -> M B) (w : World) :
  (forall a w1, m w = (Ok a, w1) -> is_ok (f a w1).1 = false) ->
  is_ok ((m ≫= f) w).1 = false.
Proof.
  intros H. rewrite bind_run. destruct (m w) as [[a|e] w1]; [apply H|]; reflexivity.
Qed.

Ltac never_ok_step Ha Hnone :=
  first
    [ rewrite bind_run, (output_tensor_missing _ _ _ _ Hnone); reflexivity
    | apply bind_never_ok_at;
      let x := fresh "x" in
      let w1 := fresh "w" in
      let H := fresh "H" in
      intros x w1 H;
      first
        [ apply deref_ok in H as [H ->]; rewrite Ha in H; injection H as <-
        | apply (pure_run_ok _ _ _ _ (pure_build_onnx_inputs _ _ _)) in H as ->
        | apply (pure_run_ok _ _ _ _ (pure_to_numpy _)) in H as ->
        | idtac ] ].

(** With a required output missing, no [forward] returns. *)
Lemma forward_missing_output (self : nat) (a : ORTModel) (n : string)
    (input_ids attention_mask token_type_ids : option Tensor) (w : World) :
  adapters w !! self = Some a ->
  n ∈ required_outputs (cls a) ->
  model_outputs a !! n = None ->
  is_ok (forward self input_ids attention_mask token_type_ids w).1 = false.
Proof.
  intros Ha Hreq Hnone.
  unfold forward. rewrite bind_run, (deref_some _ _ _ Ha).
  destruct (cls a) eqn:Hcls; cbn in Hreq;
    repeat (apply elem_of_cons in Hreq as [->|Hreq]);
    try (apply elem_of_nil in Hreq; contradiction);
    unfold ORTModelForFeatureExtraction_forward, ORTModelForQuestionAnswering_forward,
      ORTModelForSequenceClassification_forward, ORTModelForTokenClassification_forward,
      ORTModelForCausalLM_forward; cbv zeta;
    repeat never_ok_step Ha Hnone.
Qed.

End Inference.

(** Runs [forward] symbolically on an adapter that is known. *)
Ltac forward_eval Ha Hm Hc :=
  unfold forward, ORTModelForFeatureExtraction_forward,
    ORTModelForQuestionAnswering_forward, ORTModelForSequenceClassification_forward,
    ORTModelForTokenClassification_forward, ORTModelForCausalLM_forward,
    build_onnx_inputs, to_numpy, run, output_tensor, deref, log, on_none,
    get_world, raise, mbind, M_bind, mret, M_ret;
  cbn;
  repeat (first [rewrite Ha | rewrite Hm | rewrite Hc]; cbn).

(** Case analysis on an optional value the goal branches on. *)
Ltac destruct_option_match :=
  match goal with
  | |- context [match ?x with Some _ => _ | None => _ end] => destruct x
  end.

(** C7. For each of the five task classes, constructing the adapter from
    a session handle succeeds: the new object holds the handle and a position
    for every output name the handle declares, in particular for the names
    the task reads when the handle declares them.  If a name the task reads
    is not declared by the handle, no call of [forward] on that adapter
    returns a result, whatever the inputs and whatever the engine does; and
    when the inputs are there and the engine has run, the class that reads
    the single output [n] raises [KeyError n]. *)
Theorem construction_succeeds_missing_output_raises `{E : Externals}
    (c : ORTClass) (s : InferenceSession) (cfg : option PretrainedConfig)
    (kwargs : Kwargs) (w0 : World) :
  c <> ORTModelBase ->
  exists self a w,
    construct c (Some s) cfg kwargs w0 = (Ok self, w) /\
    adapters w !! self = Some a /\
    model a = Some s /\
    (forall n, n ∈ get_outputs s -> is_Some (model_outputs a !! n)) /\
    (forall n,
       n ∈ required_outputs c -> n ∉ get_outputs s ->
       forall input_ids attention_mask token_type_ids,
         is_ok (forward self input_ids attention_mask token_type_ids w).1 = false) /\
    (forall n ids mask token_type_ids outputs,
       required_outputs c = [n] -> n ∉ get_outputs s ->
       session_run s
         (match token_type_ids with
          | Some t =>
              if takes_token_type_ids c
              then [("input_ids", tensor_numpy ids); ("attention_mask", tensor_numpy mask);
                    ("token_type_ids", tensor_numpy t)]
              else [("input_ids", tensor_numpy ids); ("attention_mask", tensor_numpy mask)]
          | None => [("input_ids", tensor_numpy ids); ("attention_mask", tensor_numpy mask)]
          end) = Some outputs ->
       (forward self (Some ids) (Some mask) token_type_ids w).1 = Raise (KeyError n)).
Proof.
  intros Hc.
  destruct (construct_some c s cfg kwargs w0) as (self & a & w & Hrun & Ha & Hcls & Hm & Hout).
  specialize (Hout Hc).
  exists self, a, w.
  repeat (split; [assumption|]).
  split; [|split].
  - intros n Hn. rewrite Hout. apply name_index_is_Some. exact Hn.
  - intros n Hreq Hn ids mask tt.
    apply (forward_missing_output self a n); [exact Ha | rewrite Hcls; exact Hreq |].
    rewrite Hout. apply name_index_None. exact Hn.
  - intros n ids mask tt outputs Hreq Hn Hsess.
    assert (Hnone : model_outputs a !! n = None)
      by (rewrite Hout; apply name_index_None; exact Hn).
    subst c. clear Hc.
    destruct (cls a) eqn:Hcls; cbn in Hreq; try discriminate Hreq;
      injection Hreq as <-; destruct tt as [t|]; cbn in Hsess;
      forward_eval Ha Hm Hcls; rewrite Hsess; cbn; rewrite Hnone; reflexivity.
Qed.

Lemma construction_succeeds_missing_output_raises_witness :
  exists self a w,
    @construct (toy false) ORTModelForSequenceClassification
      (Some "last_hidden_state") None no_kwargs (toy_world false) = (Ok self, w) /\
    adapters w !! self = Some a /\
    model a = Some "last_hidden_state" /\
    is_Some (model_outputs a !! "last_hidden_state") /\
    is_ok (@forward (toy false) self (Some 5%Z) (Some 1%Z) None w).1 = false /\
    (@forward (toy false) self (Some 5%Z) (Some 1%Z) None w).1
    = Raise (KeyError "logits").
Proof.
  destruct (@construction_succeeds_missing_output_raises (toy false)
              ORTModelForSequenceClassification "last_hidden_state" None
              no_kwargs (toy_world false))
    as (self & a & w & Hrun & Ha & Hm & Hout & Hraise & Hkey); [discriminate|].
  exists self, a, w.
  repeat (split; [assumption|]).
  split; [|split].
  - apply Hout. cbn. apply list_elem_of_here.
  - apply (Hraise "logits").
    + cbn. apply list_elem_of_here.
    + cbn. intros Hin. apply list_elem_of_singleton in Hin. discriminate Hin.
  - apply (Hkey "logits" (5%Z : @Tensor (toy false)) (1%Z : @Tensor (toy false))
             None ([5%Z] : list (@NDArray (toy false)))).
    + reflexivity.
    + cbn. intros Hin. apply list_elem_of_singleton in Hin. discriminate Hin.
    + reflexivity.
Defined.

(** The engine is reached, and a result returned, when the names are there. *)
Example forward_returns_on_declared_output :
  (@forward (toy false) 0 (Some 5%Z) (Some 1%Z) None (toy_loaded false)).1
  = Ok (@SequenceClassifierOutput (toy false) 5%Z).
Proof. vm_compute. reflexivity. Qed.

(** C10. On an adapter of any of the five task classes, [forward] with
    [input_ids] or [attention_mask] equal to [None] raises [AttributeError]
    before anything else happens: no default is substituted and the engine
    is not called.  With both given and [token_type_ids] equal to [None],
    the call does not fail on the missing argument: the engine is run once,
    on the input map with exactly the keys [input_ids] and
    [attention_mask].  A [token_type_ids] that is given is added as a third
    key by the four encoder classes and dropped by the causal class. *)
Theorem forward_requires_ids_and_mask `{E : Externals}
    (self : nat) (a : ORTModel) (s : InferenceSession) (w : World) :
  adapters w !! self = Some a ->
  cls a <> ORTModelBase ->
  model a = Some s ->
  (forall input_ids attention_mask token_type_ids,
     input_ids = None \/ attention_mask = None ->
     forward self input_ids attention_mask token_type_ids w
     = (Raise (AttributeError "cpu"), w)) /\
  (forall ids mask,
     trace (forward self (Some ids) (Some mask) None w).2
     = (trace w ++
         [EvSessionRun [("input_ids", tensor_numpy ids);
                        ("attention_mask", tensor_numpy mask)]])%list /\
     forall attr,
       (forward self (Some ids) (Some mask) None w).1 <> Raise (AttributeError attr)) /\
  (forall ids mask t,
     trace (forward self (Some ids) (Some mask) (Some t) w).2
     = (trace w ++
         [EvSessionRun
            (if takes_token_type_ids (cls a)
             then [("input_ids", tensor_numpy ids);
                   ("attention_mask", tensor_numpy mask);
                   ("token_type_ids", tensor_numpy t)]
             else [("input_ids", tensor_numpy ids);
                   ("attention_mask", tensor_numpy mask)])])%list).
Proof.
  intros Ha Hcls Hm.
  split; [|split].
  - intros ids mask tt Hnone.
    unfold forward. rewrite bind_run, (deref_some _ _ _ Ha).
    destruct (cls a); try contradiction;
      destruct Hnone as [-> | ->]; try destruct ids; reflexivity.
  - intros ids mask.
    destruct (cls a) eqn:Hc; try contradiction;
      (split; [|intros attr]);
      forward_eval Ha Hm Hc;
      repeat (destruct_option_match; cbn); first [reflexivity | discriminate].
  - intros ids mask t.
    destruct (cls a) eqn:Hc; try contradiction;
      forward_eval Ha Hm Hc;
      repeat (destruct_option_match; cbn); reflexivity.
Qed.

Lemma forward_requires_ids_and_mask_witness :
  @forward (toy false) 0 None (Some 1%Z) None (toy_loaded false)
  = (Raise (AttributeError "cpu"), toy_loaded false) /\
  @forward (toy false) 0 (Some 5%Z) None None (toy_loaded false)
  = (Raise (AttributeError "cpu"), toy_loaded false) /\
  trace (@forward (toy false) 0 (Some 5%Z) (Some 1%Z) None (toy_loaded false)).2
  = (trace (toy_loaded false)
      ++ [@EvSessionRun (toy false)
            [("input_ids", 5%Z : @NDArray (toy false)); ("attention_mask", 1%Z)]])%list.
Proof.
  assert (Ha : exists a,
    adapters (toy_loaded false) !! 0%nat = Some a /\
    cls a = ORTModelForSequenceClassification /\
    @model (toy false) a = Some "logits").
  { eexists. vm_compute. repeat split. }
  destruct Ha as (a & Ha & Hcls & Hm).
  destruct (@forward_requires_ids_and_mask (toy false) 0 a "logits"
              (toy_loaded false) Ha)
    as (Hnone & Hrun & _); [rewrite Hcls; discriminate | exact Hm |].
  split; [apply Hnone; left; reflexivity|].
  split; [apply Hnone; right; reflexivity|].
  apply (Hrun (5%Z : @Tensor (toy false)) (1%Z : @Tensor (toy false))).
Defined.

(** * Further properties of the module *)

(** ** The name-to-position dictionaries *)

Section NameIndex.

Lemma foldl_insert_lookup_Some (l : list string) (d : gmap string nat)
    (k : nat) (n : string) (i : nat) :
  foldl (λ d '(idx, name), <[name := idx]> d) d (imap (λ j x, (k + j, x)) l) !! n
  = Some i
  <-> (exists j, i = k + j /\ l !! j = Some n /\
         forall j', j < j' -> l !! j' <> Some n)
      \/ ((n ∉ l) /\ d !! n = Some i).
Proof.
  revert d k. induction l as [|x l IH]; intros d k.
  - cbn. split.
    + intros H. right. split; [apply not_elem_of_nil | exact H].
    + intros [(j & _ & Hj & _) | [_ H]]; [discriminate Hj | exact H].
  - cbn [imap foldl].
    rewrite (imap_ext _ (λ j x, (S k + j, x)) l)
      by (intros; cbn; f_equal; lia).
    rewrite IH. clear IH. split.
    + intros [(j & -> & Hj & Hlast) | [Hnot Hd]].
      * left. exists (S j). split; [lia|]. split; [exact Hj|].
        intros [|j'] Hlt; [lia|]. cbn. apply Hlast. lia.
      * destruct (decide (x = n)) as [->|Hne].
        -- rewrite lookup_insert_eq in Hd. injection Hd as <-.
           left. exists 0. split; [lia|]. split; [reflexivity|].
           intros [|j'] Hlt; [lia|]. cbn. intros Hj.
           apply Hnot. eapply list_elem_of_lookup_2. exact Hj.
        -- rewrite lookup_insert_ne in Hd by exact Hne.
           right. split; [|exact Hd].
           rewrite not_elem_of_cons. split; [congruence | exact Hnot].
    + intros [(j & -> & Hj & Hlast) | [Hnot Hd]].
      * destruct j as [|j].
        -- cbn in Hj. injection Hj as ->. right. split.
           ++ intros Hin. apply list_elem_of_lookup_1 in Hin as [j' Hj'].
              apply (Hlast (S j')); [lia | exact Hj'].
           ++ rewrite lookup_insert_eq. reflexivity.
        -- left. exists j. split; [lia|]. split; [exact Hj|].
           intros j' Hlt. apply (Hlast (S j')). lia.
      * apply not_elem_of_cons in Hnot as [Hne Hnot].
        right. split; [exact Hnot|].
        rewrite lookup_insert_ne by congruence. exact Hd.
Qed.

Lemma name_index_lookup_Some (names : list string) (n : string) (i : nat) :
  name_index names !! n = Some i
  <-> names !! i = Some n /\ forall j, i < j -> names !! j <> Some n.
Proof.
  unfold name_index.
  assert (Himap : imap pair names = imap (λ j x, (0 + j, x)) names)
    by (apply imap_ext; reflexivity).
  rewrite Himap, foldl_insert_lookup_Some. split.
  - intros [(j & -> & Hj & Hlast) | [_ H]]; [|rewrite lookup_empty in H; discriminate H].
    split; [exact Hj | exact Hlast].
  - intros [Hi Hlast]. left. exists i. auto.
Qed.

End NameIndex.

(** X1. The dictionary built by [{key.name: idx for idx, key in
    enumerate(...)}] sends a name to the position of its last occurrence in
    the declared list, and has no other entries: a stored position is always
    a valid index that holds that name, and when a name is declared twice
    the earlier position is lost. *)
Theorem name_index_is_last_position (names : list string) (n : string) (i : nat) :
  name_index names !! n = Some i
  <-> names !! i = Some n /\ forall j, i < j -> names !! j <> Some n.
Proof. apply name_index_lookup_Some. Qed.

(** X2. When the declared names are pairwise distinct the dictionary and
    the list are inverse to each other: looking a name up gives its one
    position, and every position is found under its name. *)
Theorem name_index_inverts_distinct_names (names : list string) (n : string) (i : nat) :
  NoDup names ->
  (name_index names !! n = Some i <-> names !! i = Some n).
Proof.
  intros Hnd. rewrite name_index_lookup_Some. split; [intros [H _]; exact H|].
  intros Hi. split; [exact Hi|].
  intros j Hlt Hj.
  pose proof (NoDup_lookup _ _ _ _ Hnd Hi Hj). lia.
Qed.

Lemma name_index_inverts_distinct_names_witness :
  NoDup ["start_logits"; "end_logits"] /\
  (name_index ["start_logits"; "end_logits"] !! "end_logits" = Some 1
   <-> ["start_logits"; "end_logits"] !! 1 = Some "end_logits").
Proof.
  assert (Hnd : NoDup ["start_logits"; "end_logits"]).
  { apply NoDup_cons. split.
    - intros Hin. apply list_elem_of_singleton in Hin. discriminate Hin.
    - apply NoDup_singleton. }
  split; [exact Hnd|].
  apply (name_index_inverts_distinct_names _ _ _ Hnd).
Defined.

(** ** Results of [forward] *)

(** Each name has a recorded position that is within what the engine
    returned. *)
Ltac positions_found :=
  repeat match goal with
  | |- _ /\ _ => split
  | |- True => exact I
  | |- exists i, Some ?n = Some i /\ _ => exists n; split; [reflexivity|]
  | H : ?m !! ?k = Some ?n |- exists i, ?m !! ?k = Some i /\ _ =>
      exists n; split; [exact H|]
  | H : ?o !! ?i = Some _ |- is_Some (?o !! ?i) => rewrite H; eauto
  | H : ?o !! ?i = Some _ |- output_field _ _ = _ <$> ?o !! ?i =>
      rewrite H; reflexivity
  end.

(** ... or some name has none. *)
Ltac positions_absurd :=
  repeat match goal with
  | H : _ /\ _ |- _ => destruct H
  | H : exists _, _ |- _ => destruct H
  | H : is_Some None |- _ => destruct H as [? H]; discriminate H
  | H : None = Some _ |- _ => discriminate H
  | H : Some _ = Some _ |- _ => injection H as <-
  | H1 : ?o !! ?i = None, H2 : is_Some (?o !! ?i) |- _ => rewrite H1 in H2
  end.

(** X3. With both tensors given and the engine run, [forward] of a task
    class returns exactly when every output name the class reads has a
    position in [model_outputs] and the engine returned an array at that
    position; a name without a position, or a position past the end of what
    the engine returned, makes the call raise.  When it returns, each field
    of the result is the engine's array at the position recorded for the
    field's name, converted back to a tensor. *)
Theorem forward_reads_recorded_positions `{E : Externals}
    (self : nat) (a : ORTModel) (s : InferenceSession) (w : World)
    (ids mask : Tensor) (token_type_ids : option Tensor) (outputs : list NDArray) :
  adapters w !! self = Some a ->
  cls a <> ORTModelBase ->
  model a = Some s ->
  session_run s (onnx_inputs_of (cls a) ids mask token_type_ids) = Some outputs ->
  (is_ok (forward self (Some ids) (Some mask) token_type_ids w).1 = true
   <-> Forall (λ n, exists i, model_outputs a !! n = Some i /\ is_Some (outputs !! i))
         (required_outputs (cls a))) /\
  (forall r,
     (forward self (Some ids) (Some mask) token_type_ids w).1 = Ok r ->
     Forall (λ n, exists i, model_outputs a !! n = Some i /\
                   output_field r n = torch_from_numpy <$> outputs !! i)
       (required_outputs (cls a))).
Proof.
  intros Ha Hcls Hm Hsess.
  destruct (cls a) eqn:Hc; try contradiction; clear Hcls;
    destruct token_type_ids as [t|]; cbn in Hsess;
    forward_eval Ha Hm Hc; rewrite Hsess; cbn;
    rewrite ?Forall_cons, ?Forall_nil.
  all: repeat match goal with
       | |- context [match ?x with Some _ => _ | None => _ end] =>
           destruct x eqn:?; cbn
       end.
  all: split;
    [ split;
      [ intros Hok; try discriminate Hok; positions_found
      | intros H; try reflexivity; exfalso; positions_absurd ]
    | intros r Hr; try discriminate Hr; injection Hr as <-;
      rewrite ?Forall_cons, ?Forall_nil; positions_found ].
Qed.

Lemma forward_reads_recorded_positions_witness :
  exists a,
    adapters (toy_loaded false) !! 0%nat = Some a /\
    (is_ok (@forward (toy false) 0 (Some 5%Z) (Some 1%Z) None (toy_loaded false)).1 = true
     <-> Forall (λ n, exists i, model_outputs a !! n = Some i /\
                       is_Some (([5%Z] : list (@NDArray (toy false))) !! i))
           ["logits"]).
Proof.
  assert (Ha : exists a,
    adapters (toy_loaded false) !! 0%nat = Some a /\
    cls a = ORTModelForSequenceClassification /\
    @model (toy false) a = Some "logits").
  { eexists. vm_compute. repeat split. }
  destruct Ha as (a & Ha & Hcls & Hm).
  exists a. split; [exact Ha|].
  destruct (@forward_reads_recorded_positions (toy false) 0 a "logits"
              (toy_loaded false) 5%Z 1%Z None [5%Z] Ha) as [Hiff _].
  - rewrite Hcls. discriminate.
  - exact Hm.
  - rewrite Hcls. reflexivity.
  - rewrite Hcls in Hiff. exact Hiff.
Defined.

(** ** Runs of a pass that fail *)

Section Failures.
Context `{E : Externals}.

#[global] Instance kept_but_preorder (out : Path) : PreOrder (kept_but out).
Proof.
  split.
  - intros w. repeat split.
  - intros w1 w2 w3 (Ha1 & Hd1 & Hf1) (Ha2 & Hd2 & Hf2).
    split; [congruence|]. split; [congruence|].
    intros q Hq. rewrite (Hf2 q Hq). apply Hf1, Hq.
Qed.

Lemma kept_but_unchanged {A} (out : Path) (m : M A) :
  (forall w, adapters (m w).2 = adapters w /\ dirs (m w).2 = dirs w /\
             files (m w).2 = files w) ->
  preserves (kept_but out) m.
Proof.
  intros H w. destruct (H w) as (Ha & Hd & Hf).
  split; [exact Ha|]. split; [exact Hd|]. intros q _. rewrite Hf. reflexivity.
Qed.

Lemma kept_but_write (out : Path) (bytes : string) :
  preserves (kept_but out) (write_file out bytes).
Proof.
  intros w. cbn. split; [reflexivity|]. split; [reflexivity|].
  intros q Hq. apply lookup_insert_ne. congruence.
Qed.

Lemma on_raise_bind {A B} (R : relation World) `{!PreOrder R}
    (m : M A) (f : A -> M B) :
  preserves R m -> (forall a, on_raise R (f a)) -> on_raise R (m ≫= f).
Proof.
  intros Hm Hf w e w' H. rewrite bind_run in H.
  specialize (Hm w). destruct (m w) as [[a|e0] w1]; cbn in Hm.
  - transitivity w1; [exact Hm | exact (Hf a w1 e w' H)].
  - injection H as <- <-. exact Hm.
Qed.

Lemma on_raise_never {A} (R : relation World) (m : M A) :
  (forall w, is_ok (m w).1 = true) -> on_raise R m.
Proof. intros Hok w e w' H. specialize (Hok w). rewrite H in Hok. discriminate Hok. Qed.

Lemma on_raise_pure {A} (R : relation World) `{!Reflexive R} (m : M A) :
  pure_run m -> on_raise R m.
Proof. intros Hp w e w' H. specialize (Hp w). rewrite H in Hp. cbn in Hp. subst w'. reflexivity. Qed.

End Failures.

(** Every step up to the reload keeps the adapters, the directories and
    the files other than the one written. *)
Ltac kept_step :=
  unfold call_optimize_model, save_model_to_file, load_model,
    call_InferenceSession, call_onnx_load, call_ONNXQuantizer,
    call_quantize_model;
  repeat first
    [ apply preserves_pure; [typeclasses eauto | solve [auto with pure_run]]
    | apply preserves_bind; [typeclasses eauto | | intros ? ]
    | apply kept_but_write
    | apply kept_but_unchanged; intros ?; repeat split; reflexivity
    | progress cbv zeta ].

Ltac on_raise_body :=
  repeat first
    [ apply on_raise_bind; [typeclasses eauto | solve [kept_step] | intros ? ]
    | progress cbv zeta
    | apply on_raise_never; intros ?; reflexivity ].

Section FailedPass.
Context `{E : Externals}.

Lemma optimize_on_raise (self : nat) (oc : option nat) (out : Path) :
  on_raise (kept_but optimized_path) (optimize self oc out).
Proof. unfold optimize, optimized_path. on_raise_body. Qed.

Lemma quantize_on_raise (self : nat) (qc : QuantizationConfig) (out : Path) :
  on_raise (kept_but quantized_path) (quantize self qc out).
Proof.
  unfold quantize, quantized_path.
  destruct (is_static qc); [apply on_raise_pure; auto with pure_run; typeclasses eauto|].
  destruct _is_gpu_available; [apply on_raise_pure; auto with pure_run; typeclasses eauto|].
  on_raise_body.
Qed.

End FailedPass.

(** X4. A pass that raises, at whatever step, leaves every adapter object
    as it was: the session, [model_save_dir] and [latest_model_name] are
    assigned only once the new file has been loaded.  No directory has
    changed either, and no file other than the one at the pass's fixed
    path, which may already have been written when the failure comes from
    the reload. *)
Theorem failed_pass_leaves_adapter `{E : Externals}
    (self : nat) (p : Pass) (output_path : Path) (w w' : World) (e : PyError) :
  run_pass self p output_path w = (Raise e, w') ->
  adapters w' = adapters w /\
  dirs w' = dirs w /\
  forall q, q <> joinpath default_cache_path (pass_file_name p) ->
    files w' !! q = files w !! q.
Proof.
  destruct p as [oc|qc]; cbn [run_pass pass_file_name]; intros H.
  - exact (optimize_on_raise self oc output_path w e w' H).
  - exact (quantize_on_raise self qc output_path w e w' H).
Qed.

Lemma failed_pass_leaves_adapter_witness :
  adapters (@optimize (toy false) 0 (Some 0) [] toy_loaded_unregistered).2
  = adapters toy_loaded_unregistered /\
  dirs (@optimize (toy false) 0 (Some 0) [] toy_loaded_unregistered).2
  = dirs toy_loaded_unregistered.
Proof.
  destruct (@failed_pass_leaves_adapter (toy false) 0 (Optimize (Some 0)) []
              toy_loaded_unregistered
              (@optimize (toy false) 0 (Some 0) [] toy_loaded_unregistered).2
              (UnsupportedModelType (VStr "gpt2")))
    as (Ha & Hd & _).
  - vm_compute. reflexivity.
  - split; [exact Ha | exact Hd].
Defined.

(** ** What a pass leaves of the adapter *)

(** X5. A successful pass replaces the session of the adapter it is called
    on and nothing else of what its class recorded at construction: the
    class, the configuration and the name-to-position dictionaries
    [model_outputs] and [model_inputs] are those of the adapter before the
    pass, computed from the session that was replaced; they are not
    recomputed from the new one.  Every other adapter object is as it
    was. *)
Theorem pass_keeps_name_dictionaries `{E : Externals}
    (self : nat) (p : Pass) (output_path : Path) (w w' : World) (r : nat) :
  run_pass self p output_path w = (Ok r, w') ->
  exists a a' bytes s,
    adapters w !! self = Some a /\
    adapters w' !! self = Some a' /\
    files w' !! joinpath default_cache_path (pass_file_name p) = Some bytes /\
    ort_InferenceSession bytes default_provider = Some s /\
    model a' = Some s /\
    cls a' = cls a /\
    config a' = config a /\
    model_outputs a' = model_outputs a /\
    model_inputs a' = model_inputs a /\
    forall other, other <> self -> adapters w' !! other = adapters w !! other.
Proof.
  intros H.
  apply run_pass_ok_inv in H as (-> & a & m & s & cfgs & evs & Ha & Hs & ->).
  exists a, (repointed a s (joinpath default_cache_path (pass_file_name p))),
    (save_model_bytes m), s.
  cbn. rewrite !lookup_insert_eq.
  repeat (split; [first [assumption | reflexivity] |]).
  intros other Hne. apply lookup_insert_ne. congruence.
Qed.

Lemma pass_keeps_name_dictionaries_witness :
  exists a a',
    adapters (toy_loaded false) !! 0%nat = Some a /\
    adapters toy_optimized !! 0%nat = Some a' /\
    @model (toy false) a' = Some "logits+fused" /\
    model_outputs a' = model_outputs a /\
    @model_outputs (toy false) a !! "logits" = Some 0%nat.
Proof.
  destruct (@pass_keeps_name_dictionaries (toy false) 0 (Optimize (Some 0)) []
              (toy_loaded false) toy_optimized 0)
    as (a & a' & bytes & s & Ha & Ha' & Hf & Hs & Hm & _ & _ & Hout & _ & _).
  - vm_compute. reflexivity.
  - exists a, a'.
    assert (Hb : bytes = "logits+fused") by (vm_compute in Hf; congruence).
    subst bytes. cbn in Hs. injection Hs as <-.
    repeat (split; [assumption|]).
    vm_compute in Ha. injection Ha as <-. vm_compute. reflexivity.
Defined.

(** ** Adapters without a save directory *)

(** X6. An adapter constructed from a session without a [model_save_dir]
    keyword argument has no save directory, and none of the operations that
    read the current artifact can run on it: [_save_pretrained] and
    [optimize] raise [AttributeError] on [joinpath] before anything else
    happens, and so does [quantize] once it is past its two guards. *)
Theorem constructed_without_save_dir_has_no_artifact `{E : Externals}
    (c : ORTClass) (s : InferenceSession) (cfg : option PretrainedConfig)
    (kwargs : Kwargs) (w0 w : World) (self : nat) :
  kw_model_save_dir kwargs = None ->
  construct c (Some s) cfg kwargs w0 = (Ok self, w) ->
  (forall save_directory file_name,
     _save_pretrained self save_directory file_name w
     = (Raise (AttributeError "joinpath"), w)) /\
  (forall optimization_config output_path,
     optimize self optimization_config output_path w
     = (Raise (AttributeError "joinpath"), w)) /\
  (forall quantization_config output_path,
     is_static quantization_config = false ->
     _is_gpu_available = false ->
     quantize self quantization_config output_path w
     = (Raise (AttributeError "joinpath"), w)).
Proof.
  intros Hkw H. unfold construct in H.
  bind_inv H a w1 H1.
  destruct (class_init_some c s cfg kwargs w0)
    as (a0 & Hinit & _ & _ & _ & Hdir & _).
  rewrite Hinit in H1. injection H1 as <- <-.
  cbn in H. injection H as <- <-.
  rewrite Hkw in Hdir.
  assert (Ha : adapters
                 {| files := files w0; dirs := dirs w0;
                    adapters := <[fresh (dom (adapters w0)) := a0]> (adapters w0);
                    opt_configs := opt_configs w0; trace := trace w0 |}
               !! fresh (dom (adapters w0)) = Some a0)
    by (cbn; apply lookup_insert_eq).
  split; [|split].
  - intros d n. unfold _save_pretrained. cbv zeta.
    rewrite bind_run, (deref_some _ _ _ Ha), Hdir. reflexivity.
  - intros oc out. unfold optimize.
    rewrite bind_run, (deref_some _ _ _ Ha), Hdir. reflexivity.
  - intros qc out Hstatic Hgpu. unfold quantize. rewrite Hstatic, Hgpu.
    rewrite bind_run, (deref_some _ _ _ Ha), Hdir. reflexivity.
Qed.

Lemma constructed_without_save_dir_has_no_artifact_witness :
  exists self w,
    @construct (toy false) ORTModelForSequenceClassification (Some "logits")
      (Some toy_config_dict) no_kwargs (toy_world false) = (Ok self, w) /\
    @_save_pretrained (toy false) self ["export"] None w
    = (Raise (AttributeError "joinpath"), w) /\
    @optimize (toy false) self (Some 0%nat) [] w
    = (Raise (AttributeError "joinpath"), w).
Proof.
  eexists _, _. split; [vm_compute; reflexivity|].
  destruct (@constructed_without_save_dir_has_no_artifact (toy false)
              ORTModelForSequenceClassification "logits" (Some toy_config_dict)
              no_kwargs (toy_world false)
              (@construct (toy false) ORTModelForSequenceClassification (Some "logits")
                 (Some toy_config_dict) no_kwargs (toy_world false)).2 0%nat)
    as (Hsave & Hopt & _).
  - reflexivity.
  - vm_compute. reflexivity.
  - split; [apply Hsave | apply Hopt].
Defined.

(** ** Attributes that [optimize] reads *)

(** X7. [optimize] on an adapter of a registered model type reads the
    head count and the hidden size from the adapter's configuration under
    the attribute names the registry gives for that model type, and reads
    [optimization_config] after both.  A configuration that lacks one of
    the two attributes, or an [optimization_config] that is [None], makes
    the call raise [AttributeError] with the world as it was: the optimizer
    has not been called and no file was written. *)
Theorem optimize_reads_registry_attributes `{E : Externals}
    (self : nat) (a : ORTModel) (d : Path) (cfg : PretrainedConfig)
    (nh hs tag : string) (output_path : Path) (w : World) :
  adapters w !! self = Some a ->
  model_save_dir a = Some d ->
  config a = Some cfg ->
  conf_lookup (model_type cfg) = Some (nh, hs, tag) ->
  (forall oc, cfg !! nh = None ->
     optimize self oc output_path w = (Raise (AttributeError nh), w)) /\
  (forall oc, is_Some (cfg !! nh) -> cfg !! hs = None ->
     optimize self oc output_path w = (Raise (AttributeError hs), w)) /\
  (is_Some (cfg !! nh) -> is_Some (cfg !! hs) ->
     optimize self None output_path w = (Raise (AttributeError "model_type"), w)) /\
  (forall oc r w', optimize self oc output_path w = (Ok r, w') ->
     exists vnh vhs args,
       cfg !! nh = Some vnh /\ cfg !! hs = Some vhs /\
       EvOptimizeModel args ∈ trace w' /\
       oa_num_heads args = vnh /\ oa_hidden_size args = vhs /\
       oa_model_type args = tag /\
       current_artifact a = Some (oa_input args)).
Proof.
  intros Ha Hd Hcfg Hreg.
  assert (Hstart : forall oc,
    optimize self oc output_path w
    = (num_heads ← lift (getattr cfg nh);
       hidden_size ← lift (getattr cfg hs);
       oc_ref ← on_none oc (AttributeError "model_type");
       setattr_model_type oc_ref (VStr tag);;
       c ← deref_config oc_ref;
       optimized_model ← call_optimize_model
         (optimize_args (joinpath d (latest_model_name a)) tag num_heads hidden_size c);
       save_model_to_file (for_gpu optimized_model) optimized_path;;
       m ← load_model optimized_path None;
       set_model self m;;
       set_model_save_dir self (path_parent optimized_path);;
       set_latest_model_name self (path_name optimized_path);;
       mret self) w).
  { intros oc. unfold optimize.
    rewrite bind_run, (deref_some _ _ _ Ha), Hd. cbn [on_none]. rewrite ret_bind.
    cbv zeta. rewrite Hcfg. cbn [on_none]. rewrite ret_bind.
    unfold check_supported_model_or_raise, get_num_heads_name, get_hidden_size_name,
      get_model_ort_type.
    rewrite Hreg, !ret_bind.
    rewrite bind_run. rewrite (bind_run (lift (getattr cfg nh))).
    destruct (lift (getattr cfg nh) w) as [[vnh|e] w1]; [|reflexivity].
    rewrite !ret_bind. reflexivity. }
  split; [|split; [|split]].
  - intros oc Hnone. rewrite Hstart, bind_run. unfold lift, getattr.
    rewrite Hnone. reflexivity.
  - intros oc [vnh Hnh] Hnone. rewrite Hstart, bind_run. unfold lift, getattr.
    rewrite Hnh, bind_run, Hnone. reflexivity.
  - intros [vnh Hnh] [vhs Hhs]. rewrite Hstart, bind_run. unfold lift, getattr.
    rewrite Hnh, bind_run, Hhs. reflexivity.
  - intros oc r w' H.
    apply optimize_ok_inv in H
      as (_ & a1 & d1 & cfg1 & nh1 & hs1 & tag1 & vnh & vhs & ocr & c0 & bytes & m & s
            & Ha1 & Hd1 & Hcfg1 & Hreg1 & Hnh & Hhs & _ & _ & _ & _ & _ & ->).
    rewrite Ha in Ha1. injection Ha1 as <-.
    rewrite Hd in Hd1. injection Hd1 as <-.
    rewrite Hcfg in Hcfg1. injection Hcfg1 as <-.
    rewrite Hreg in Hreg1. injection Hreg1 as <- <- <-.
    eexists vnh, vhs, _.
    split; [exact Hnh|]. split; [exact Hhs|].
    split.
    + cbn. apply elem_of_app. right. apply list_elem_of_here.
    + cbn. unfold current_artifact. rewrite Hd. repeat split.
Qed.

Lemma optimize_reads_registry_attributes_witness :
  @optimize (toy false) 0 None [] (toy_loaded false)
  = (Raise (AttributeError "model_type"), toy_loaded false).
Proof.
  assert (Ha : exists a,
    adapters (toy_loaded false) !! 0%nat = Some a /\
    model_save_dir a = Some ["repo"] /\
    @config (toy false) a = Some toy_config_dict).
  { eexists. vm_compute. repeat split. }
  destruct Ha as (a & Ha & Hd & Hcfg).
  destruct (@optimize_reads_registry_attributes (toy false) 0 a ["repo"]
              toy_config_dict "n_heads" "dim" "bert" [] (toy_loaded false)
              Ha Hd Hcfg)
    as (_ & _ & Hnone & _).
  - vm_compute. reflexivity.
  - apply Hnone; eexists; vm_compute; reflexivity.
Defined.

(** ** The calls that [quantize] makes *)

Section QuantizeEvents.
Context `{E : Externals}.

Lemma quantize_events (self : nat) (qc : QuantizationConfig) (out : Path) :
  preserves (trace_extends (quantize_event qc)) (quantize self qc out).
Proof.
  unfold quantize.
  destruct (is_static qc) eqn:Hstatic;
    [apply preserves_pure; auto with pure_run; typeclasses eauto|].
  destruct _is_gpu_available eqn:Hgpu;
    [apply preserves_pure; auto with pure_run; typeclasses eauto|].
  preserves_body; apply trace_extends_log; cbn; rewrite ?Hstatic, ?Hgpu; auto 10.
Qed.

End QuantizeEvents.

(** X8. Whatever the configuration and whatever the outcome, the external
    calls of a run of [quantize] are of these kinds only: loads of a model
    file, a quantizer constructed in dynamic mode ([static] false) with no
    tensor ranges, the configuration's [reduce_range], its operators given
    by value, and subgraphs disabled; the quantization itself; a save at the
    fixed quantized path and a session opened from that path on the CPU
    provider.  The optimizer, the hub and the inference engine's [run] are
    never called. *)
Theorem quantize_makes_only_dynamic_cpu_calls `{E : Externals}
    (self : nat) (qc : QuantizationConfig) (output_path : Path) (w : World) :
  exists evs,
    trace (quantize self qc output_path w).2 = (trace w ++ evs)%list /\
    Forall (quantize_event qc) evs.
Proof. exact (quantize_events self qc output_path w). Qed.

(** ** Where a load looks *)

Section LoadRuns.
Context `{E : Externals}.

Lemma path_parent_name (p : Path) :
  p <> [] -> joinpath (path_parent p) (path_name p) = p.
Proof.
  intros Hp. unfold joinpath, path_parent, path_name.
  symmetry. apply app_removelast_last. exact Hp.
Qed.

(** Any run of [load_model]: one call of the engine on the file. *)
Lemma load_model_run (path : Path) (provider : option string) (w : World) :
  load_model path provider w
  = (match files w !! path ≫= λ bytes,
             ort_InferenceSession bytes (provider_or_default provider) with
     | Some s => Ok s
     | None => Raise (ExternalError "InferenceSession")
     end,
     (log (EvInferenceSession path (provider_or_default provider)) w).2).
Proof.
  unfold load_model, call_InferenceSession, provider_or_default, default_provider.
  rewrite bind_run. cbn [log]. rewrite bind_run. cbn [get_world].
  cbn [files].
  destruct provider as [prov|]; cbn [default from_option id];
    (destruct (files w !! path) as [bytes|]; cbn [mbind option_bind];
     [|reflexivity]);
    match goal with |- context [ort_InferenceSession bytes ?pr] =>
      destruct (ort_InferenceSession bytes pr)
    end; reflexivity.
Qed.

(** A successful load from the hub. *)
Lemma from_pretrained_hub_ok (c : ORTClass) (model_id : Path) (tok : PyVal)
    (rev : option string) (force : bool) (cache : option string)
    (file_name : option string) (kw : Kwargs) (w w' : World) (self : nat) :
  model_id ∉ dirs w ->
  _from_pretrained c model_id tok rev force cache file_name kw w = (Ok self, w') ->
  exists p bytes s a,
    hf_hub_download (download_args model_id tok rev force cache file_name)
    = Some (p, bytes) /\
    ort_InferenceSession bytes default_provider = Some s /\
    adapters w !! self = None /\
    adapters w' !! self = Some a /\
    cls a = c /\ model a = Some s /\
    model_save_dir a = Some (path_parent p) /\
    latest_model_name a = path_name p /\
    (c <> ORTModelBase -> model_outputs a = name_index (get_outputs s)) /\
    files w' = <[p := bytes]> (files w) /\ dirs w' = dirs w /\
    trace w' = (trace w ++
      [EvHubDownload (download_args model_id tok rev force cache file_name);
       EvInferenceSession p default_provider])%list.
Proof.
  intros Hdir H. unfold _from_pretrained in H. cbv zeta in H.
  bind_inv H loc w1 H1. cbn in H1. injection H1 as <- <-.
  rewrite bool_decide_eq_false_2 in H by exact Hdir.
  bind_inv H p w1 H1. unfold call_hf_hub_download in H1.
  bind_inv H1 u2 w2 H2. cbn in H2. injection H2 as <- <-.
  bind_inv H1 dl w2 H2. apply on_none_ok in H2 as [Hdl ->].
  destruct dl as [p0 bytes].
  bind_inv H1 u3 w3 H3. cbn in H3. injection H3 as <- <-.
  cbn in H1. injection H1 as <- <-.
  bind_inv H s w1 H1. unfold load_model, call_InferenceSession in H1.
  bind_inv H1 u2 w2 H2. cbn in H2. injection H2 as <- <-.
  bind_inv H1 w3 w4 H2. cbn in H2. injection H2 as <- <-.
  apply on_none_bind_ok in H1 as (bytes' & Hbytes & Hs & ->). cbn in Hbytes.
  rewrite lookup_insert_eq in Hbytes. injection Hbytes as <-.
  unfold construct in H.
  bind_inv H a w1 H1.
  match type of H1 with class_init ?c0 _ ?cfg0 ?kw0 ?w0 = _ =>
    destruct (class_init_some c0 s cfg0 kw0 w0)
      as (a0 & Hinit & Hcls & Hmodel & _ & Hdir' & Hname & Hout)
  end.
  rewrite Hinit in H1. injection H1 as <- <-.
  cbn in H. injection H as <- <-.
  exists p0, bytes, s, a0. cbn.
  rewrite lookup_insert_eq.
  split; [exact Hdl|]. split; [exact Hs|].
  split; [apply not_elem_of_dom; apply is_fresh|].
  repeat (split; [first [assumption | reflexivity] |]).
  rewrite <- app_assoc. reflexivity.
Qed.

End LoadRuns.

(** X9. A load from an existing local directory stays local, whether it
    returns or raises: it makes one external call, the opening of the session
    on the named file of that directory, and none to the hub; no file and no
    directory changes, and no adapter that existed is changed.  When the
    named file is not there the load raises. *)
Theorem local_load_stays_local `{E : Externals}
    (c : ORTClass) (model_id : Path) (use_auth_token : PyVal)
    (revision : option string) (force_download : bool) (cache_dir : option string)
    (file_name : option string) (kwargs : Kwargs) (w : World) :
  model_id ∈ dirs w ->
  let run := _from_pretrained c model_id use_auth_token revision force_download
               cache_dir file_name kwargs w in
  let path := joinpath model_id (default ONNX_WEIGHTS_NAME file_name) in
  trace run.2 = (trace w ++ [EvInferenceSession path default_provider])%list /\
  files run.2 = files w /\
  dirs run.2 = dirs w /\
  (forall r a, adapters w !! r = Some a -> adapters run.2 !! r = Some a) /\
  (files w !! path = None -> run.1 = Raise (ExternalError "InferenceSession")).
Proof.
  intros Hdir. cbv zeta.
  unfold _from_pretrained. cbv zeta.
  rewrite bind_run. cbn [isdir]. rewrite bool_decide_eq_true_2 by exact Hdir.
  rewrite bind_run, load_model_run.
  unfold provider_or_default. cbn [default from_option id].
  destruct (files w !! joinpath model_id (default ONNX_WEIGHTS_NAME file_name))
    as [bytes|] eqn:Hfile; cbn [mbind option_bind]; [|repeat split; auto].
  destruct (ort_InferenceSession bytes default_provider) as [s|] eqn:Hs;
    [|repeat split; auto; discriminate].
  unfold construct. rewrite bind_run.
  match goal with |- context [class_init ?c0 (Some s) ?cfg0 ?kw0 ?w0] =>
    destruct (class_init_some c0 s cfg0 kw0 w0) as (a0 & Hinit & _);
    rewrite Hinit
  end.
  cbn. repeat split; try discriminate.
  intros r a Hr. rewrite lookup_insert_ne; [exact Hr|].
  intros <-.
  assert (Hfresh : adapters w !! fresh (dom (adapters w)) = None)
    by (apply not_elem_of_dom, is_fresh).
  congruence.
Qed.

Lemma local_load_stays_local_witness :
  trace (toy_loaded false)
  = [EvInferenceSession ["repo"; "model.onnx"] "CPUExecutionProvider"] /\
  files (toy_loaded false) = files (toy_world false).
Proof.
  destruct (@local_load_stays_local (toy false) ORTModelForSequenceClassification
              ["repo"] VNone None true None None toy_kwargs (toy_world false))
    as (Ht & Hf & _).
  - vm_compute. set_solver.
  - split; [exact Ht | exact Hf].
Defined.

(** X10. A load of a name that is not a local directory asks the hub once,
    for that repository and file name with the caller's token, revision,
    cache directory and download flag, and takes both [model_save_dir] and
    [latest_model_name] from the path the download returns, whatever
    [latest_model_name] the keyword arguments carried.  The new adapter is
    therefore in step with its session: its current artifact is the
    downloaded file, and its session is the one the engine opens from the
    bytes of that file. *)
Theorem hub_load_follows_download `{E : Externals}
    (c : ORTClass) (model_id : Path) (use_auth_token : PyVal)
    (revision : option string) (force_download : bool) (cache_dir : option string)
    (file_name : option string) (kwargs : Kwargs) (w w' : World) (self : nat) :
  model_id ∉ dirs w ->
  _from_pretrained c model_id use_auth_token revision force_download cache_dir
    file_name kwargs w = (Ok self, w') ->
  exists p bytes s a,
    hf_hub_download
      (download_args model_id use_auth_token revision force_download cache_dir file_name)
    = Some (p, bytes) /\
    trace w'
    = (trace w ++
        [EvHubDownload
           (download_args model_id use_auth_token revision force_download cache_dir
              file_name);
         EvInferenceSession p default_provider])%list /\
    adapters w' !! self = Some a /\
    model_save_dir a = Some (path_parent p) /\
    latest_model_name a = path_name p /\
    files w' !! p = Some bytes /\
    ort_InferenceSession bytes default_provider = Some s /\
    model a = Some s /\
    (p <> [] -> current_artifact a = Some p).
Proof.
  intros Hdir H.
  apply from_pretrained_hub_ok in H
    as (p & bytes & s & a & Hdl & Hs & _ & Ha & _ & Hm & Hd & Hn & _ & Hf & _ & Ht);
    [|exact Hdir].
  exists p, bytes, s, a.
  repeat (split; [assumption|]).
  split; [rewrite Hf; apply lookup_insert_eq|].
  repeat (split; [assumption|]).
  intros Hp. unfold current_artifact. rewrite Hd, Hn. cbn.
  f_equal. apply path_parent_name. exact Hp.
Qed.

Lemma hub_load_follows_download_witness :
  exists a,
    adapters (@_from_pretrained (toy false) ORTModelForCausalLM ["org"; "gpt2"]
                VNone None true None None toy_kwargs (toy_world false)).2 !! 0%nat
    = Some a /\
    model_save_dir a = Some ["hub"] /\
    latest_model_name a = "model.onnx" /\
    @current_artifact (toy false) a = Some ["hub"; "model.onnx"].
Proof.
  destruct (@hub_load_follows_download (toy false) ORTModelForCausalLM ["org"; "gpt2"]
              VNone None true None None toy_kwargs (toy_world false)
              (@_from_pretrained (toy false) ORTModelForCausalLM ["org"; "gpt2"]
                 VNone None true None None toy_kwargs (toy_world false)).2 0%nat)
    as (p & bytes & s & a & Hdl & _ & Ha & Hd & Hn & _ & _ & _ & Hcur).
  - vm_compute. set_solver.
  - vm_compute. reflexivity.
  - exists a. cbn in Hdl. injection Hdl as <- <-.
    split; [exact Ha|]. split; [exact Hd|]. split; [exact Hn|].
    apply Hcur. discriminate.
Defined.

(** ** Saving *)



(** X12. Saving an adapter onto its own current artifact is refused: when
    the destination, [save_directory] joined with the file name, is the file
    the adapter would copy from, and that file exists, [_save_pretrained]
    raises the same-file error and nothing changes.  This is what a save
    into the directory the adapter was loaded from does when the file names
    agree.  Any other save that succeeds can be repeated: the same call on
    the world it produced succeeds again and changes nothing. *)
Theorem save_onto_itself_is_refused `{E : Externals}
    (self : nat) (a : ORTModel) (src : Path) (save_directory : Path)
    (file_name : option string) (w : World) :
  adapters w !! self = Some a ->
  current_artifact a = Some src ->
  (is_Some (files w !! src) ->
   joinpath save_directory (default ONNX_WEIGHTS_NAME file_name) = src ->
   _save_pretrained self save_directory file_name w = (Raise (SameFileError src), w)) /\
  (files w !! src = None ->
   _save_pretrained self save_directory file_name w = (Raise (FileNotFoundError src), w)) /\
  (forall u w1,
     _save_pretrained self save_directory file_name w = (Ok u, w1) ->
     _save_pretrained self save_directory file_name w1 = (Ok u, w1)).
Proof.
  intros Ha Hsrc. split; [|split].
  - intros [bytes Hfile] Hdst.
    rewrite (save_pretrained_run _ _ _ _ _ _ Ha Hsrc), copyfile_run, Hfile, Hdst.
    rewrite decide_True by reflexivity. reflexivity.
  - intros Hfile.
    rewrite (save_pretrained_run _ _ _ _ _ _ Ha Hsrc), copyfile_run, Hfile.
    reflexivity.
  - intros u w1 H.
    rewrite (save_pretrained_run _ _ _ _ _ _ Ha Hsrc), copyfile_run in H.
    destruct (files w !! src) as [bytes|] eqn:Hfile; [|discriminate H].
    destruct (decide (src = joinpath save_directory (default ONNX_WEIGHTS_NAME file_name)))
      as [|Hne]; [discriminate H|].
    destruct (decide (path_parent (joinpath save_directory
                (default ONNX_WEIGHTS_NAME file_name)) ∈ dirs w)) as [Hin|];
      [|discriminate H].
    cbn in H. injection H as <- <-.
    match goal with |- _save_pretrained _ _ _ ?w1 = _ =>
      assert (Ha1 : adapters w1 !! self = Some a) by exact Ha;
      rewrite (save_pretrained_run _ _ _ _ _ w1 Ha1 Hsrc), copyfile_run
    end.
    cbn [files dirs]. rewrite lookup_insert_ne by congruence. rewrite Hfile.
    rewrite decide_False by exact Hne. rewrite decide_True by exact Hin.
    unfold write_file. cbn. rewrite insert_insert_eq. reflexivity.
Qed.

Lemma save_onto_itself_is_refused_witness :
  @_save_pretrained (toy false) 0 ["repo"] None (toy_loaded false)
  = (Raise (SameFileError ["repo"; "model.onnx"]), toy_loaded false).
Proof.
  assert (Ha : exists a,
    adapters (toy_loaded false) !! 0%nat = Some a /\
    @current_artifact (toy false) a = Some ["repo"; "model.onnx"]).
  { eexists. vm_compute. repeat split. }
  destruct Ha as (a & Ha & Hsrc).
  destruct (@save_onto_itself_is_refused (toy false) 0 a ["repo"; "model.onnx"]
              ["repo"] None (toy_loaded false) Ha Hsrc) as (Hsame & _).
  apply Hsame.
  - eexists. vm_compute. reflexivity.
  - reflexivity.
Defined.

(** ** Adapters in step with their files *)

(** X13. A load from a local directory leaves the new adapter in step with
    its files under an agreement of names that the code does not check: when
    the file name that was loaded, [file_name] or else [ONNX_WEIGHTS_NAME],
    is the [latest_model_name] the adapter gets, the keyword argument or
    else ["model.onnx"], the adapter's current artifact is the file its
    session was opened from. *)
Theorem local_load_with_agreeing_names_is_in_step `{E : Externals}
    (c : ORTClass) (model_id : Path) (use_auth_token : PyVal)
    (revision : option string) (force_download : bool) (cache_dir : option string)
    (file_name : option string) (kwargs : Kwargs) (w w' : World) (self : nat) :
  model_id ∈ dirs w ->
  default ONNX_WEIGHTS_NAME file_name
  = default "model.onnx" (kw_latest_model_name kwargs) ->
  _from_pretrained c model_id use_auth_token revision force_download cache_dir
    file_name kwargs w = (Ok self, w') ->
  in_step w' self.
Proof.
  intros Hdir Hname H.
  apply from_pretrained_local_ok in H
    as (bytes & s & a & Hbytes & Hs & _ & Ha & _ & Hm & Hd & Hlatest & _ & Hf & _);
    [|exact Hdir].
  exists a, s, (joinpath model_id (default ONNX_WEIGHTS_NAME file_name)), bytes.
  split; [exact Ha|]. split; [exact Hm|].
  split; [unfold current_artifact; rewrite Hd, Hlatest, Hname; reflexivity|].
  split; [rewrite Hf; exact Hbytes | exact Hs].
Qed.

Lemma local_load_with_agreeing_names_is_in_step_witness :
  @in_step (toy false) (toy_loaded false) 0.
Proof.
  apply (@local_load_with_agreeing_names_is_in_step (toy false)
           ORTModelForSequenceClassification ["repo"] VNone None true None None
           toy_kwargs (toy_world false) (toy_loaded false) 0%nat).
  - vm_compute. set_solver.
  - reflexivity.
  - vm_compute. reflexivity.
Defined.

(** X14. For an adapter in step with its files the round trip holds: a
    save stays in step, and a save to [save_directory] under a name followed
    by a load of that directory under the same name, as whatever class and
    with whatever keyword arguments, gives an adapter whose session declares
    the same input and output names as the one that was saved. *)
Theorem save_then_load_round_trips_in_step `{E : Externals}
    (self : nat) (save_directory : Path) (name : string)
    (c : ORTClass) (use_auth_token : PyVal) (revision : option string)
    (force_download : bool) (cache_dir : option string) (kwargs : Kwargs)
    (w w1 w2 : World) (u : ()) (self' : nat) :
  in_step w self ->
  _save_pretrained self save_directory (Some name) w = (Ok u, w1) ->
  _from_pretrained c save_directory use_auth_token revision force_download
    cache_dir (Some name) kwargs w1 = (Ok self', w2) ->
  in_step w1 self /\
  declared_inputs w2 self' = declared_inputs w self /\
  declared_outputs w2 self' = declared_outputs w self.
Proof.
  intros (a & s & src & bytes & Ha & Hm & Hcur & Hfile & Hs) Hsave Hload.
  split.
  - apply save_pretrained_ok in Hsave
      as (a1 & src1 & bytes1 & Ha1 & Hsrc1 & Hfile1 & _ & Hfiles & _ & Hadapters & _).
    rewrite Ha in Ha1. injection Ha1 as <-.
    rewrite Hcur in Hsrc1. injection Hsrc1 as <-.
    rewrite Hfile in Hfile1. injection Hfile1 as <-.
    exists a, s, src, bytes.
    split; [rewrite Hadapters; exact Ha|].
    repeat (split; [assumption|]).
    split; [|exact Hs].
    rewrite Hfiles.
    destruct (decide (src = joinpath save_directory (default ONNX_WEIGHTS_NAME (Some name))))
      as [<-|Hne].
    + apply lookup_insert_eq.
    + rewrite lookup_insert_ne by congruence. exact Hfile.
  - exact (save_then_load_in_sync self a src bytes s save_directory name c
             use_auth_token revision force_download cache_dir kwargs w w1 w2 u self'
             Ha Hm Hcur Hfile Hs Hsave Hload).
Qed.

Lemma save_then_load_round_trips_in_step_witness :
  exists w1 w2,
    @_save_pretrained (toy false) 0 ["export"] (Some "copy.onnx") (toy_loaded false)
    = (Ok (), w1) /\
    @_from_pretrained (toy false) ORTModelForSequenceClassification ["export"]
      VNone None true None (Some "copy.onnx") toy_kwargs w1 = (Ok 1%nat, w2) /\
    declared_outputs w2 1 = declared_outputs (toy_loaded false) 0.
Proof.
  eexists _, _.
  split; [vm_compute; reflexivity|].
  split; [vm_compute; reflexivity|].
  refine (proj2 (proj2 (@save_then_load_round_trips_in_step (toy false) 0 ["export"]
                   "copy.onnx" ORTModelForSequenceClassification VNone None true None
                   toy_kwargs (toy_loaded false) _ _ () 1%nat _ _ _))).
  - eexists _, _, _, _. vm_compute. repeat split.
  - vm_compute. reflexivity.
  - vm_compute. reflexivity.
Defined.

(** ** Generation *)

(** X15. [prepare_inputs_for_generation] returns a dictionary with the key
    [input_ids], holding the tensor it was given, and the key
    [attention_mask] exactly when the keyword arguments carry a mask that is
    not [None]; every other keyword argument is dropped.  Calling [forward]
    of the causal class with that dictionary therefore runs the engine on
    the token ids and the mask when a mask was passed, and raises
    [AttributeError] with nothing done when none was: the step of a
    generation loop needs the mask. *)
Theorem generation_inputs_are_ids_and_mask `{E : Externals}
    (self : nat) (a : ORTModel) (w : World)
    (input_ids : Tensor) (kwargs : gmap string (option Tensor)) :
  adapters w !! self = Some a ->
  cls a = ORTModelForCausalLM ->
  let inputs := prepare_inputs_for_generation input_ids kwargs in
  inputs_get "input_ids" inputs = Some input_ids /\
  inputs_get "attention_mask" inputs = default None (kwargs !! "attention_mask") /\
  (forall k, k <> "input_ids" -> k <> "attention_mask" -> inputs_get k inputs = None) /\
  match default None (kwargs !! "attention_mask") with
  | Some attention_mask =>
      forward_with self inputs w
      = ORTModelForCausalLM_forward self (Some input_ids) (Some attention_mask) w
  | None => forward_with self inputs w = (Raise (AttributeError "cpu"), w)
  end.
Proof.
  intros Ha Hcls. cbv zeta.
  unfold prepare_inputs_for_generation, forward_with, forward. cbv zeta.
  rewrite bind_run, (deref_some _ _ _ Ha), Hcls.
  destruct (default None (kwargs !! "attention_mask")) as [mask|]; cbn.
  - repeat split.
    intros k Hk1 Hk2.
    rewrite decide_False by congruence. rewrite decide_False by congruence.
    reflexivity.
  - repeat split.
    intros k Hk1 Hk2. rewrite decide_False by congruence. reflexivity.
Qed.

Lemma generation_inputs_are_ids_and_mask_witness :
  @forward_with (toy false) 0
    (@prepare_inputs_for_generation (toy false) 5%Z {[ "use_cache" := None ]})
    toy_loaded_unregistered
  = (Raise (AttributeError "cpu"), toy_loaded_unregistered).
Proof.
  assert (Ha : exists a,
    adapters toy_loaded_unregistered !! 0%nat = Some a /\
    cls a = ORTModelForCausalLM).
  { eexists. vm_compute. repeat split. }
  destruct Ha as (a & Ha & Hcls).
  destruct (@generation_inputs_are_ids_and_mask (toy false) 0 a toy_loaded_unregistered
              5%Z {[ "use_cache" := None ]} Ha Hcls) as (_ & _ & _ & Hrun).
  exact Hrun.
Defined.

(** ** One pass after another *)



(** ** Opening a session *)

(** X17. [load_model] makes one call, the opening of a session on the path
    it is given, and changes nothing else.  The provider is the one passed,
    whatever the hardware; without one it is the CUDA provider when a GPU is
    reported and the CPU provider otherwise.  The call returns exactly when
    the file exists and the engine accepts its bytes on that provider, and
    raises otherwise. *)
Theorem load_model_opens_the_given_path `{E : Externals}
    (path : Path) (provider : option string) (w : World) :
  let run := load_model path provider w in
  let used := match provider with
              | Some p => p
              | None => if _is_gpu_available then "CUDAExecutionProvider"
                        else "CPUExecutionProvider"
              end in
  trace run.2 = (trace w ++ [EvInferenceSession path used])%list /\
  files run.2 = files w /\ dirs run.2 = dirs w /\
  adapters run.2 = adapters w /\ opt_configs run.2 = opt_configs w /\
  (forall s, run.1 = Ok s
     <-> exists bytes, files w !! path = Some bytes /\
                       ort_InferenceSession bytes used = Some s) /\
  (is_ok run.1 = false
     <-> forall bytes, files w !! path = Some bytes ->
                       ort_InferenceSession bytes used = None).
Proof.
  cbv zeta. rewrite load_model_run.
  assert (Hused : provider_or_default provider
                  = match provider with
                    | Some p => p
                    | None => if _is_gpu_available then "CUDAExecutionProvider"
                              else "CPUExecutionProvider"
                    end) by (destruct provider; reflexivity).
  rewrite Hused. clear Hused. cbn [fst snd log trace files dirs adapters opt_configs].
  repeat (split; [reflexivity|]).
  destruct (files w !! path) as [bytes|]; cbn [mbind option_bind].
  - match goal with |- context [ort_InferenceSession bytes ?u] =>
      destruct (ort_InferenceSession bytes u) as [s|] eqn:Hs
    end.
    + split.
      * intros s'. split.
        -- intros H. injection H as <-. exists bytes. auto.
        -- intros (b & Hb & Hs'). injection Hb as <-. congruence.
      * split; [discriminate|].
        intros H. specialize (H bytes eq_refl). congruence.
    + split.
      * intros s'. split; [discriminate|].
        intros (b & Hb & Hs'). injection Hb as <-. congruence.
      * split; [|reflexivity]. intros _ b Hb. injection Hb as <-. exact Hs.
  - split.
    + intros s'. split; [discriminate|]. intros (b & Hb & _). discriminate Hb.
    + split; [|reflexivity]. intros _ b Hb. discriminate Hb.
Qed.

(** ** Export *)

Section ExportRuns.
Context `{E : Externals} `{X : ExportTools}.



End ExportRuns.



(** X19. [_from_transformers] accepts [use_auth_token], [force_download]
    and [cache_dir] and uses none of them: neither the tokenizer, the model
    nor the final load is given the token, so what it does is the same for
    any two values of the three.  A class with a [pipeline_task] of its own
    does not use [revision] either.  The [model_save_dir] and [config]
    among the caller's keyword arguments are overwritten before they are
    read. *)
Theorem export_ignores_download_arguments `{E : Externals} `{X : ExportTools}
    (c : ORTClass) (model_id save_dir : Path) (revision : option string)
    (kwargs : Kwargs) :
  (forall use_auth_token use_auth_token' force_download force_download'
          cache_dir cache_dir',
     _from_transformers c model_id save_dir use_auth_token revision force_download
       cache_dir kwargs
     = _from_transformers c model_id save_dir use_auth_token' revision force_download'
         cache_dir' kwargs) /\
  (forall use_auth_token force_download cache_dir revision',
     c <> ORTModelBase ->
     _from_transformers c model_id save_dir use_auth_token revision force_download
       cache_dir kwargs
     = _from_transformers c model_id save_dir use_auth_token revision' force_download
         cache_dir kwargs) /\
  (forall use_auth_token force_download cache_dir config' model_save_dir',
     _from_transformers c model_id save_dir use_auth_token revision force_download
       cache_dir kwargs
     = _from_transformers c model_id save_dir use_auth_token revision force_download
         cache_dir
         {| kw_config := config';
            kw_model_save_dir := model_save_dir';
            kw_latest_model_name := kw_latest_model_name kwargs |}).
Proof.
  split; [|split].
  - reflexivity.
  - intros tok force cache rev' Hc. destruct c; [contradiction|..]; reflexivity.
  - reflexivity.
Qed.

(** X20. The remapping of a pipeline tag read from the hub is a
    normalisation: applying it twice is applying it once, the task label of
    each of the five task classes is left as it is, and no result is one of
    the five tags that are remapped. *)
Theorem task_of_pipeline_tag_normalises `{E : Externals} (tag : option string) :
  task_of_pipeline_tag (task_of_pipeline_tag tag) = task_of_pipeline_tag tag /\
  (forall c t, pipeline_task c = Some t -> task_of_pipeline_tag (Some t) = Some t) /\
  (forall t, task_of_pipeline_tag tag = Some t ->
     t ∉ ["sentiment-analysis"; "text-classification"; "zero-shot-classification";
          "feature-extraction"; "fill-mask"]).
Proof.
  split; [|split].
  - destruct tag as [t|]; [|reflexivity].
    change (task_of_pipeline_tag (Some t))
      with (if bool_decide (t ∈ ["sentiment-analysis"; "text-classification";
                                 "zero-shot-classification"])
            then Some "sequence-classification"
            else if bool_decide (t ∈ ["feature-extraction"; "fill-mask"])
            then Some "default" else Some t).
    destruct (bool_decide (t ∈ ["sentiment-analysis"; "text-classification";
                                "zero-shot-classification"])) eqn:H1;
      [reflexivity|].
    destruct (bool_decide (t ∈ ["feature-extraction"; "fill-mask"])) eqn:H2;
      [reflexivity|].
    cbn. rewrite H1, H2. reflexivity.
  - intros c t Hc. destruct c; cbn in Hc; [discriminate|..];
      injection Hc as <-; reflexivity.
  - intros t Ht. destruct tag as [t0|]; [|discriminate Ht]. cbn in Ht.
    repeat case_bool_decide; injection Ht as <-.
    + intros Hin.
      repeat (apply elem_of_cons in Hin as [Hin|Hin]; [discriminate Hin|]).
      apply elem_of_nil in Hin. exact Hin.
    + intros Hin.
      repeat (apply elem_of_cons in Hin as [Hin|Hin]; [discriminate Hin|]).
      apply elem_of_nil in Hin. exact Hin.
    + intros Hin.
      change (t0 ∈ (["sentiment-analysis"; "text-classification";
                     "zero-shot-classification"]
                    ++ ["feature-extraction"; "fill-mask"])%list) in Hin.
      apply elem_of_app in Hin as [Hin|Hin]; contradiction.
Qed.

(** ** Construction without a session *)

(** X21. The [model] argument of the constructors defaults to [None], and
    only the base class can be constructed that way: each of the five task
    classes reads the declared outputs of the session in its [__init__] and
    raises [AttributeError] when there is none, leaving no object behind.
    The base class constructs, with no session, and [forward] on such an
    object raises [NotImplementedError] whatever it is given, without
    touching anything. *)
Theorem task_adapter_needs_a_session `{E : Externals}
    (cfg : option PretrainedConfig) (kwargs : Kwargs) (w : World) :
  (forall c, c <> ORTModelBase ->
     construct c None cfg kwargs w = (Raise (AttributeError "get_outputs"), w)) /\
  (exists self a w',
     construct ORTModelBase None cfg kwargs w = (Ok self, w') /\
     adapters w !! self = None /\
     adapters w' !! self = Some a /\
     model a = None /\
     forall input_ids attention_mask token_type_ids,
       forward self input_ids attention_mask token_type_ids w'
       = (Raise NotImplementedError, w')).
Proof.
  split.
  - intros c Hc. destruct c; [contradiction|..]; reflexivity.
  - eexists _, _, _. split; [reflexivity|].
    split; [apply not_elem_of_dom, is_fresh|].
    split; [cbn; apply lookup_insert_eq|].
    split; [reflexivity|].
    intros ids mask tt. unfold forward.
    rewrite bind_run, (deref_some _ _ (ORTModel_init ORTModelBase None cfg kwargs)).
    + reflexivity.
    + cbn. apply lookup_insert_eq.
Qed.
